(** * Provides side of the OpenStack integration interface (provides.py)

    A shallow embedding of [OpenStackIntegrationProvides] and
    [IntegrationRequest].  The reactive framework the module is written
    against (flags, joined units, the per-relation [to_publish] mapping)
    is represented by an explicit [World] that every method reads or
    threads through. *)

From stdpp Require Import gmap strings list fin_maps.
From Stdlib Require Import ZArith.

Local Open Scope string_scope.
Local Set Warnings "-register-all,-clear-no-such-hyp".

(** ** Python values *)

(** The values that travel through the interface: setter arguments and
    whatever is stored in a relation's [to_publish] mapping.  A [dict] keeps
    its items in insertion order, as Python's does. *)
Inductive PyVal : Type :=
| PNone
| PBool (b : bool)
| PInt (z : Z)
| PStr (s : string)
| PList (l : list PyVal)
| PDict (d : list (string * PyVal)).

Abbreviation PyDict := (list (string * PyVal)).

(** Python truthiness, as used by [not data] and [v or ""]. *)
Definition truthy (v : PyVal) : bool :=
  match v with
  | PNone => false
  | PBool b => b
  | PInt z => negb (z =? 0)%Z
  | PStr s => negb (String.eqb s "")
  | PList l => match l with [] => false | _ => true end
  | PDict d => match d with [] => false | _ => true end
  end.

(** [isinstance(v, dict)] *)
Definition isinstance_dict (v : PyVal) : bool :=
  match v with PDict _ => true | _ => false end.

(** [a or b] *)
Definition py_or (a b : PyVal) : PyVal := if truthy a then a else b.

(** ** The framework state *)

Abbreviation relation_id := string (only parsing).

(** A remote unit: its name and the relation it belongs to.  Units of one
    relation share that relation's [to_publish] mapping. *)
Record Unit : Type := mkUnit {
  unit_name : string;
  relation : relation_id;
}.

Record World : Type := mkWorld {
  flags : gset string;                              (* flags currently set *)
  to_publish : gmap string (gmap string PyVal);     (* relation -> published data *)
  all_joined_units : list Unit;                     (* joined units, in join order *)
}.

Definition set_flag (f : string) (w : World) : World :=
  mkWorld ({[f]} ∪ flags w) (to_publish w) (all_joined_units w).

Definition clear_flag (f : string) (w : World) : World :=
  mkWorld (flags w ∖ {[f]}) (to_publish w) (all_joined_units w).

Definition toggle_flag (f : string) (should_set : bool) (w : World) : World :=
  if should_set then set_flag f w else clear_flag f w.

Definition is_flag_set (f : string) (w : World) : bool :=
  bool_decide (f ∈ flags w).

(** [dict.update(d)]: the items of [d] are written one after the other. *)
Definition dict_update (m : gmap string PyVal) (d : PyDict) : gmap string PyVal :=
  foldl (λ acc kv, <[kv.1 := kv.2]> acc) m d.

(** ** IntegrationRequest *)

Record IntegrationRequest : Type := mkIntegrationRequest {
  _unit : Unit;
}.

Module Request.

(** [self._unit.relation.to_publish]; a relation that has published
    nothing yet has an empty mapping. *)
Definition _to_publish (self : IntegrationRequest) (w : World) : gmap string PyVal :=
  default ∅ (to_publish w !! relation (_unit self)).

(** [self._to_publish.update(d)] *)
Definition publish (self : IntegrationRequest) (d : PyDict) (w : World) : World :=
  mkWorld (flags w)
          (<[relation (_unit self) := dict_update (_to_publish self w) d]> (to_publish w))
          (all_joined_units w).

Definition has_credentials (self : IntegrationRequest) (w : World) : bool :=
  bool_decide (is_Some (_to_publish self w !! "credentials")).

Definition is_changed (self : IntegrationRequest) (w : World) : bool :=
  negb (has_credentials self w).

Definition unit_name (self : IntegrationRequest) : string :=
  unit_name (_unit self).

Definition credentials_record
    (auth_url region username password user_domain_name project_domain_name
     project_name endpoint_tls_ca domain_id domain_name project_id
     project_domain_id user_domain_id version : PyVal) : PyDict :=
  [ ("auth_url", auth_url);
    ("region", region);
    ("username", username);
    ("password", password);
    ("domain_id", domain_id);
    ("domain_name", domain_name);
    ("endpoint_tls_ca", endpoint_tls_ca);
    ("project_domain_name", project_domain_name);
    ("project_domain_id", project_domain_id);
    ("project_id", project_id);
    ("project_name", project_name);
    ("user_domain_id", user_domain_id);
    ("user_domain_name", user_domain_name);
    ("version", version) ].

(** The body of [set_credentials], once its parameters are bound. *)
Definition set_credentials (self : IntegrationRequest)
    (auth_url region username password user_domain_name project_domain_name
     project_name endpoint_tls_ca : PyVal) (extra : list PyVal)
    (domain_id domain_name project_id project_domain_id user_domain_id
     version : PyVal) (w : World) : World :=
  publish self
    (credentials_record auth_url region username password user_domain_name
       project_domain_name project_name endpoint_tls_ca domain_id domain_name
       project_id project_domain_id user_domain_id version) w.

Definition lbaas_record
    (subnet_id floating_network_id lb_method manage_security_groups
     has_octavia lb_enabled internal_lb : PyVal) : PyDict :=
  [ ("subnet_id", subnet_id);
    ("floating_network_id", floating_network_id);
    ("lb_method", lb_method);
    ("internal_lb", internal_lb);
    ("manage_security_groups", manage_security_groups);
    ("has_octavia", has_octavia);
    ("lb_enabled", lb_enabled) ].

Definition set_lbaas_config (self : IntegrationRequest)
    (subnet_id floating_network_id lb_method manage_security_groups
     has_octavia lb_enabled internal_lb : PyVal) (w : World) : World :=
  publish self
    (lbaas_record subnet_id floating_network_id lb_method
       manage_security_groups has_octavia lb_enabled internal_lb) w.

Definition set_block_storage_config (self : IntegrationRequest)
    (bs_version trust_device_path ignore_volume_az : PyVal) (w : World) : World :=
  publish self
    [ ("bs_version", bs_version);
      ("trust_device_path", trust_device_path);
      ("ignore_volume_az", ignore_volume_az) ] w.

Definition proxy_config (self : IntegrationRequest) (w : World) : PyDict :=
  match _to_publish self w !! "proxy_config" with
  | None => []                                   (* get() gave None *)
  | Some data =>
      if negb (truthy data) || negb (isinstance_dict data) then []
      else match data with
           | PDict items => map (λ kv, (kv.1, py_or kv.2 (PStr ""))) items
           | _ => []
           end
  end.

Definition set_proxy_config (self : IntegrationRequest) (proxy_config : PyVal)
    (w : World) : World :=
  publish self [ ("proxy_config", proxy_config) ] w.

End Request.

(** ** Calling a method

    [set_credentials] and [set_lbaas_config] are declared with defaults, a
    variadic catch-all and keyword-only parameters.  What a call binds to
    each parameter is decided here, following Python's rules. *)

Inductive Exception : Type := TypeError.

Inductive Outcome (A : Type) : Type :=
| Returns (a : A)
| Raises (e : Exception).
Arguments Returns {A} a.
Arguments Raises {A} e.

Record Signature : Type := mkSignature {
  sig_positional : list (string * option PyVal);   (* name, default *)
  sig_varargs : bool;                              (* has a variadic catch-all *)
  sig_kwonly : list (string * option PyVal);       (* after the catch-all *)
}.

Definition sig_names (sg : Signature) : list string :=
  (sig_positional sg).*1 ++ (sig_kwonly sg).*1.

(** Keyword arguments: each must name a parameter that has no value yet. *)
Fixpoint bind_keywords (allowed : list string) (kwargs : PyDict)
    (env : gmap string PyVal) : option (gmap string PyVal) :=
  match kwargs with
  | [] => Some env
  | (k, v) :: rest =>
      if bool_decide (k ∈ allowed) && bool_decide (env !! k = None)
      then bind_keywords allowed rest (<[k := v]> env)
      else None
  end.

(** Parameters left without a value take their default, if they have one. *)
Fixpoint fill_defaults (params : list (string * option PyVal))
    (env : gmap string PyVal) : option (gmap string PyVal) :=
  match params with
  | [] => Some env
  | (name, dflt) :: rest =>
      match env !! name, dflt with
      | Some _, _ => fill_defaults rest env
      | None, Some d => fill_defaults rest (<[name := d]> env)
      | None, None => None
      end
  end.

Definition bind_arguments (sg : Signature) (args : list PyVal) (kwargs : PyDict)
    : Outcome (gmap string PyVal) :=
  let names := (sig_positional sg).*1 in
  if negb (sig_varargs sg) && bool_decide (length names < length args)
  then Raises TypeError
  else
    match bind_keywords (sig_names sg) kwargs (list_to_map (zip names args)) with
    | None => Raises TypeError
    | Some env =>
        match fill_defaults (sig_positional sg ++ sig_kwonly sg) env with
        | None => Raises TypeError
        | Some env' => Returns env'
        end
    end.

(** The value a bound parameter holds. *)
Definition arg (env : gmap string PyVal) (name : string) : PyVal :=
  default PNone (env !! name).

Module Call.

Definition set_credentials_sig : Signature :=
  mkSignature
    [ ("auth_url", None); ("region", None); ("username", None);
      ("password", None); ("user_domain_name", None);
      ("project_domain_name", None); ("project_name", None);
      ("endpoint_tls_ca", None) ]
    true
    [ ("domain_id", Some PNone); ("domain_name", Some PNone);
      ("project_id", Some PNone); ("project_domain_id", Some PNone);
      ("user_domain_id", Some PNone); ("version", Some PNone) ].

Definition set_lbaas_config_sig : Signature :=
  mkSignature
    [ ("subnet_id", None); ("floating_network_id", None);
      ("lb_method", None); ("manage_security_groups", None);
      ("has_octavia", Some PNone); ("lb_enabled", Some PNone);
      ("internal_lb", Some (PBool false)) ]
    false
    [].

(** A call of [request.set_credentials] with the given positional and
    keyword arguments. *)
Definition set_credentials (self : IntegrationRequest) (args : list PyVal)
    (kwargs : PyDict) (w : World) : Outcome World :=
  match bind_arguments set_credentials_sig args kwargs with
  | Raises e => Raises e
  | Returns env =>
      Returns
        (Request.set_credentials self
           (arg env "auth_url") (arg env "region") (arg env "username")
           (arg env "password") (arg env "user_domain_name")
           (arg env "project_domain_name") (arg env "project_name")
           (arg env "endpoint_tls_ca")
           (drop (length (sig_positional set_credentials_sig)) args)
           (arg env "domain_id") (arg env "domain_name") (arg env "project_id")
           (arg env "project_domain_id") (arg env "user_domain_id")
           (arg env "version") w)
  end.

(** A call of [request.set_lbaas_config] with the given positional and
    keyword arguments. *)
Definition set_lbaas_config (self : IntegrationRequest) (args : list PyVal)
    (kwargs : PyDict) (w : World) : Outcome World :=
  match bind_arguments set_lbaas_config_sig args kwargs with
  | Raises e => Raises e
  | Returns env =>
      Returns
        (Request.set_lbaas_config self
           (arg env "subnet_id") (arg env "floating_network_id")
           (arg env "lb_method") (arg env "manage_security_groups")
           (arg env "has_octavia") (arg env "lb_enabled")
           (arg env "internal_lb") w)
  end.

End Call.

(** ** OpenStackIntegrationProvides *)

(** An endpoint instance.  [_all_requests] is [None] as long as the instance
    has no such attribute. *)
Record OpenStackIntegrationProvides : Type := mkProvides {
  endpoint_name : string;
  _all_requests : option (list IntegrationRequest);
}.

Module Provides.

(** A freshly created endpoint object. *)
Definition new (name : string) : OpenStackIntegrationProvides :=
  mkProvides name None.

(** The framework's [Endpoint.expand_name], for a flag name that does not
    itself contain the endpoint-name placeholder. *)
Definition expand_name (self : OpenStackIntegrationProvides) (flag : string) : string :=
  "endpoint." +:+ endpoint_name self +:+ "." +:+ flag.

Definition all_requests (self : OpenStackIntegrationProvides) (w : World)
    : list IntegrationRequest * OpenStackIntegrationProvides :=
  match _all_requests self with
  | Some cached => (cached, self)
  | None =>
      let made := map mkIntegrationRequest (all_joined_units w) in
      (made, mkProvides (endpoint_name self) (Some made))
  end.

Definition new_requests (self : OpenStackIntegrationProvides) (w : World)
    : list IntegrationRequest * OpenStackIntegrationProvides :=
  let '(all, self') := all_requests self w in
  (filter (λ r, Request.is_changed r w) all, self').

Definition check_requests (self : OpenStackIntegrationProvides) (w : World)
    : OpenStackIntegrationProvides * World :=
  let '(all, self') := all_requests self w in
  (self',
   clear_flag (expand_name self "changed")
     (toggle_flag (expand_name self "requests-pending")
        (0 <? length all)%nat w)).

Definition mark_completed (self : OpenStackIntegrationProvides) (w : World)
    : OpenStackIntegrationProvides * World :=
  (self, clear_flag (expand_name self "requests-pending") w).

(** The [@when('endpoint.{endpoint_name}.changed')] registration: the
    framework runs the handler when that flag is set. *)
Definition dispatch (self : OpenStackIntegrationProvides) (w : World)
    : OpenStackIntegrationProvides * World :=
  if is_flag_set (expand_name self "changed") w
  then check_requests self w
  else (self, w).

End Provides.

(** ** The life of an endpoint instance

    What can happen between two reads of [all_requests]: the charm calls the
    methods of the endpoint and of its requests, and the framework changes
    the joined units and the flags. *)

Inductive Op : Type :=
| OpAllRequests
| OpNewRequests
| OpCheckRequests
| OpMarkCompleted
| OpDispatch
| OpSetCredentials (r : IntegrationRequest) (args : list PyVal) (kwargs : PyDict)
| OpSetLbaasConfig (r : IntegrationRequest) (args : list PyVal) (kwargs : PyDict)
| OpSetBlockStorageConfig (r : IntegrationRequest) (a b c : PyVal)
| OpSetProxyConfig (r : IntegrationRequest) (d : PyVal)
| OpUnits (us : list Unit)          (* the bus reports another set of joined units *)
| OpSetFlag (f : string)
| OpClearFlag (f : string).

(** A call that raises leaves the state as it was. *)
Definition or_unchanged (w : World) (o : Outcome World) : World :=
  match o with Returns w' => w' | Raises _ => w end.

Definition step (st : OpenStackIntegrationProvides * World) (op : Op)
    : OpenStackIntegrationProvides * World :=
  let '(self, w) := st in
  match op with
  | OpAllRequests => ((Provides.all_requests self w).2, w)
  | OpNewRequests => ((Provides.new_requests self w).2, w)
  | OpCheckRequests => Provides.check_requests self w
  | OpMarkCompleted => Provides.mark_completed self w
  | OpDispatch => Provides.dispatch self w
  | OpSetCredentials r args kwargs =>
      (self, or_unchanged w (Call.set_credentials r args kwargs w))
  | OpSetLbaasConfig r args kwargs =>
      (self, or_unchanged w (Call.set_lbaas_config r args kwargs w))
  | OpSetBlockStorageConfig r a b c =>
      (self, Request.set_block_storage_config r a b c w)
  | OpSetProxyConfig r d => (self, Request.set_proxy_config r d w)
  | OpUnits us => (self, mkWorld (flags w) (to_publish w) us)
  | OpSetFlag f => (self, set_flag f w)
  | OpClearFlag f => (self, clear_flag f w)
  end.

Definition run (ops : list Op) (st : OpenStackIntegrationProvides * World)
    : OpenStackIntegrationProvides * World :=
  foldl step st ops.

(** ** Vocabulary of the statements *)

(** The memoised list, if there is one, is the one the current joined units
    give. *)
Definition cache_coherent (self : OpenStackIntegrationProvides) (w : World) : Prop :=
  match _all_requests self with
  | None => True
  | Some cached => cached = map mkIntegrationRequest (all_joined_units w)
  end.

(** The operations other than a change of the joined units. *)
Definition keeps_units (op : Op) : bool :=
  match op with OpUnits _ => false | _ => true end.

(** Which record a setter call writes, for the operations that are setter
    calls. *)
Inductive RecordKind : Type :=
| CredentialsRecord | LbaasRecord | BlockStorageRecord | ProxyConfigRecord.

Definition setter_kind (op : Op) : option RecordKind :=
  match op with
  | OpSetCredentials _ _ _ => Some CredentialsRecord
  | OpSetLbaasConfig _ _ _ => Some LbaasRecord
  | OpSetBlockStorageConfig _ _ _ _ => Some BlockStorageRecord
  | OpSetProxyConfig _ _ => Some ProxyConfigRecord
  | _ => None
  end.

Definition credentials_fields : list string :=
  [ "auth_url"; "region"; "username"; "password"; "domain_id"; "domain_name";
    "endpoint_tls_ca"; "project_domain_name"; "project_domain_id";
    "project_id"; "project_name"; "user_domain_id"; "user_domain_name";
    "version" ].

Definition block_storage_fields : list string :=
  [ "bs_version"; "trust_device_path"; "ignore_volume_az" ].

(** The parameters a signature declares without a default. *)
Definition required_parameters (sg : Signature) : list string :=
  (filter (λ p, p.2 = None) (sig_positional sg ++ sig_kwonly sg)%list).*1.

(** The parameters that the first [n] positional arguments of a call fill. *)
Definition filled_by_position (sg : Signature) (n : nat) : list string :=
  take n (sig_positional sg).*1.

(** Whether a setter call returns, that is whether its arguments bind. *)
Definition setter_returns (op : Op) : bool :=
  match op with
  | OpSetCredentials _ args kwargs =>
      match bind_arguments Call.set_credentials_sig args kwargs with
      | Returns _ => true
      | Raises _ => false
      end
  | OpSetLbaasConfig _ args kwargs =>
      match bind_arguments Call.set_lbaas_config_sig args kwargs with
      | Returns _ => true
      | Raises _ => false
      end
  | _ => true
  end.

(** A value a string-to-string mapping may hold: a string, or null. *)
Definition str_or_none (v : PyVal) : bool :=
  match v with PNone | PStr _ => true | _ => false end.

Definition null_to_empty (v : PyVal) : PyVal :=
  match v with PNone => PStr "" | _ => v end.

Definition lbaas_fields : list string :=
  [ "subnet_id"; "floating_network_id"; "lb_method"; "internal_lb";
    "manage_security_groups"; "has_octavia"; "lb_enabled" ].

Definition kind_fields (kind : RecordKind) : list string :=
  match kind with
  | CredentialsRecord => credentials_fields
  | LbaasRecord => lbaas_fields
  | BlockStorageRecord => block_storage_fields
  | ProxyConfigRecord => [ "proxy_config" ]
  end.

(** The request a setter call is made on. *)
Definition setter_request (op : Op) : option IntegrationRequest :=
  match op with
  | OpSetCredentials r _ _ | OpSetLbaasConfig r _ _
  | OpSetBlockStorageConfig r _ _ _ | OpSetProxyConfig r _ => Some r
  | _ => None
  end.

(** ** Sample data *)

Module Sample.

Definition master0 : Unit := mkUnit "kubernetes-master/0" "openstack:3".
Definition master1 : Unit := mkUnit "kubernetes-master/1" "openstack:3".
Definition worker0 : Unit := mkUnit "kubernetes-worker/0" "openstack:5".

Definition request0 : IntegrationRequest := mkIntegrationRequest master0.
Definition request1 : IntegrationRequest := mkIntegrationRequest master1.
Definition worker_request : IntegrationRequest := mkIntegrationRequest worker0.

Definition endpoint : OpenStackIntegrationProvides := Provides.new "openstack".

Definition changed_flag : string := "endpoint.openstack.changed".
Definition pending_flag : string := "endpoint.openstack.requests-pending".

(** One unit has joined, nothing has been published to it, and the
    framework has just signalled a change. *)
Definition one_unit : World := mkWorld {[changed_flag]} ∅ [master0].

(** The same, with a ["credentials"] entry already present in the
    relation's published data. *)
Definition answered : World :=
  mkWorld {[changed_flag]}
          {["openstack:3" := {["credentials" := PStr "token"]}]}
          [master0].

Definition no_units : World := mkWorld {[changed_flag]} ∅ [].

Definition three_units : World := mkWorld ∅ ∅ [master0; worker0; master1].

Definition credentials : list PyVal :=
  [ PStr "https://keystone.example:5000/v3"; PStr "RegionOne"; PStr "admin";
    PStr "secret"; PStr "admin_domain"; PStr "admin_domain"; PStr "admin";
    PStr "" ].

Definition proxy : PyDict := [ ("host", PStr "proxy.example"); ("port", PNone) ].

End Sample.

(** ** Facts about the framework state *)

Section framework_facts.
Implicit Types (w : World) (m : gmap string PyVal) (d : PyDict) (k : string).
Implicit Types (r self : IntegrationRequest).

Lemma dict_update_lookup_notin m d k :
  k ∉ d.*1 → dict_update m d !! k = m !! k.
Proof.
  revert m. induction d as [|[k' v] d IH]; intros m Hk; [done|].
  cbn in Hk. apply not_elem_of_cons in Hk as [Hne Hk].
  change (dict_update (<[k' := v]> m) d !! k = m !! k).
  rewrite IH by done. by rewrite lookup_insert_ne.
Qed.

Lemma dict_update_is_Some m d k :
  is_Some (dict_update m d !! k) ↔ k ∈ d.*1 ∨ is_Some (m !! k).
Proof.
  revert m. induction d as [|[k' v] d IH]; intros m.
  - cbn. set_solver.
  - change (dict_update m ((k', v) :: d)) with (dict_update (<[k' := v]> m) d).
    rewrite IH, fmap_cons, elem_of_cons. cbn.
    destruct (decide (k' = k)) as [->|Hne].
    + rewrite lookup_insert_eq. split; [eauto|]. intros _. right. eauto.
    + rewrite lookup_insert_ne by done. naive_solver.
Qed.

Lemma dict_update_singleton m k (v : PyVal) :
  dict_update m [(k, v)] !! k = Some v.
Proof. cbn. apply lookup_insert_eq. Qed.

Lemma to_publish_publish_same self r d w :
  relation (_unit r) = relation (_unit self) →
  Request._to_publish r (Request.publish self d w)
  = dict_update (Request._to_publish self w) d.
Proof.
  intros Heq. unfold Request._to_publish at 1, Request.publish. cbn.
  by rewrite Heq, lookup_insert_eq.
Qed.

Lemma to_publish_publish_other self r d w :
  relation (_unit r) ≠ relation (_unit self) →
  Request._to_publish r (Request.publish self d w) = Request._to_publish r w.
Proof.
  intros Hne. unfold Request._to_publish, Request.publish. cbn.
  by rewrite lookup_insert_ne.
Qed.

Lemma to_publish_same_relation self r w :
  relation (_unit r) = relation (_unit self) →
  Request._to_publish r w = Request._to_publish self w.
Proof. unfold Request._to_publish. by intros ->. Qed.

(** Publishing a record that has no ["credentials"] key leaves
    [has_credentials] of every request as it was. *)
Lemma has_credentials_publish self r d w :
  "credentials" ∉ d.*1 →
  Request.has_credentials r (Request.publish self d w)
  = Request.has_credentials r w.
Proof.
  intros Hk. unfold Request.has_credentials.
  destruct (decide (relation (_unit r) = relation (_unit self))) as [Heq|Hne].
  - rewrite to_publish_publish_same by done.
    rewrite dict_update_lookup_notin by done.
    by rewrite (to_publish_same_relation self r w).
  - by rewrite to_publish_publish_other.
Qed.

Lemma has_credentials_flags r w fs :
  Request.has_credentials r (mkWorld fs (to_publish w) (all_joined_units w))
  = Request.has_credentials r w.
Proof. done. Qed.

End framework_facts.

Lemma toggle_flag_flags (f : string) (b : bool) (w : World) :
  flags (toggle_flag f b w) = if b then {[f]} ∪ flags w else flags w ∖ {[f]}.
Proof. by destruct b. Qed.

Lemma toggle_flag_frame (f : string) (b : bool) (w : World) :
  to_publish (toggle_flag f b w) = to_publish w
  ∧ all_joined_units (toggle_flag f b w) = all_joined_units w.
Proof. by destruct b. Qed.

Section provides_facts.
Implicit Types (self : OpenStackIntegrationProvides) (w : World).

Lemma expand_name_inj self (a b : string) :
  Provides.expand_name self a = Provides.expand_name self b → a = b.
Proof.
  unfold Provides.expand_name. intros H.
  by repeat (apply (inj (String.app _)) in H).
Qed.

Lemma pending_ne_changed self :
  Provides.expand_name self "requests-pending" ≠ Provides.expand_name self "changed".
Proof. intros H. by apply expand_name_inj in H. Qed.

Lemma all_requests_endpoint_name self w :
  endpoint_name (Provides.all_requests self w).2 = endpoint_name self.
Proof. unfold Provides.all_requests. by destruct (_all_requests self). Qed.

Lemma all_requests_cached self w :
  _all_requests (Provides.all_requests self w).2
  = Some (Provides.all_requests self w).1.
Proof.
  unfold Provides.all_requests.
  by destruct (_all_requests self) eqn:E.
Qed.

Lemma all_requests_hit self w (l : list IntegrationRequest) :
  _all_requests self = Some l → Provides.all_requests self w = (l, self).
Proof. unfold Provides.all_requests. by intros ->. Qed.

End provides_facts.

(** ** set_credentials and has_credentials *)

(** No key of the record written by [set_credentials] is ["credentials"], so
    the call leaves [has_credentials] (and with it [is_changed]) of every
    request as it found it. *)
Lemma set_credentials_keeps_has_credentials
    (self r : IntegrationRequest)
    (a1 a2 a3 a4 a5 a6 a7 a8 : PyVal) (extra : list PyVal)
    (k1 k2 k3 k4 k5 k6 : PyVal) (w : World) :
  Request.has_credentials r
    (Request.set_credentials self a1 a2 a3 a4 a5 a6 a7 a8 extra k1 k2 k3 k4 k5 k6 w)
  = Request.has_credentials r w.
Proof.
  unfold Request.set_credentials. apply has_credentials_publish.
  cbn. rewrite !elem_of_cons, elem_of_nil.
  intros H. repeat (destruct H as [H|H]; [discriminate H|]). done.
Qed.

(** C1: on a request whose relation has nothing published yet, a call of
    [set_credentials] with the eight required arguments returns, and
    afterwards [has_credentials] is still false and [is_changed] still true:
    the fourteen fields are written as top-level keys and none of them is the
    ["credentials"] key that [has_credentials] looks for. *)
Theorem set_credentials_then_has_credentials_false :
  ∃ w',
    Call.set_credentials Sample.request0 Sample.credentials [] Sample.one_unit
    = Returns w'
    ∧ Request._to_publish Sample.request0 w' !! "auth_url"
      = Some (PStr "https://keystone.example:5000/v3")
    ∧ Request._to_publish Sample.request0 w' !! "credentials" = None
    ∧ Request.has_credentials Sample.request0 w' = false
    ∧ Request.is_changed Sample.request0 w' = true.
Proof. eexists. split; [reflexivity|]. by vm_compute. Qed.

(** ** all_requests *)

Lemma cache_coherent_new (name : string) (w : World) :
  cache_coherent (Provides.new name) w.
Proof. done. Qed.

Lemma cache_coherent_all_requests (self : OpenStackIntegrationProvides) (w : World) :
  cache_coherent self w → cache_coherent (Provides.all_requests self w).2 w.
Proof.
  unfold cache_coherent, Provides.all_requests.
  destruct (_all_requests self) eqn:E; cbn; by rewrite ?E.
Qed.

(** C4: on an endpoint instance whose list is computed now, or was computed
    from the units that are joined now, [all_requests] is the list of the
    joined units each wrapped in a request: as long as the joined units, in
    their order, and empty when no unit has joined. *)
Theorem all_requests_one_per_unit
    (self : OpenStackIntegrationProvides) (w : World) :
  cache_coherent self w →
  let requests := (Provides.all_requests self w).1 in
  requests = map mkIntegrationRequest (all_joined_units w)
  ∧ length requests = length (all_joined_units w)
  ∧ (∀ i : nat, _unit <$> requests !! i = all_joined_units w !! i)
  ∧ (all_joined_units w = [] → requests = []).
Proof.
  intros Hc requests.
  assert (requests = map mkIntegrationRequest (all_joined_units w)) as Heq.
  { subst requests. unfold Provides.all_requests, cache_coherent in *.
    by destruct (_all_requests self). }
  rewrite Heq. split; [done|]. split; [apply length_map|]. split.
  - intros i. change (map mkIntegrationRequest) with (fmap (M:=list) mkIntegrationRequest).
    rewrite list_lookup_fmap. by destruct (all_joined_units w !! i).
  - by intros ->.
Qed.

Lemma all_requests_one_per_unit_witness :
  (Provides.all_requests Sample.endpoint Sample.three_units).1
  = [ mkIntegrationRequest Sample.master0;
      mkIntegrationRequest Sample.worker0;
      mkIntegrationRequest Sample.master1 ]
  ∧ (Provides.all_requests Sample.endpoint Sample.no_units).1 = [].
Proof.
  split.
  - apply (all_requests_one_per_unit Sample.endpoint Sample.three_units).
    exact (cache_coherent_new "openstack" Sample.three_units).
  - apply (all_requests_one_per_unit Sample.endpoint Sample.no_units).
    + exact (cache_coherent_new "openstack" Sample.no_units).
    + reflexivity.
Defined.

(** Once the list is there, no operation takes it away or replaces it. *)
Lemma step_keeps_cache (st : OpenStackIntegrationProvides * World) (op : Op)
    (l : list IntegrationRequest) :
  _all_requests st.1 = Some l → _all_requests (step st op).1 = Some l.
Proof.
  destruct st as [self w]. cbn [fst]. intros Hl.
  destruct op; cbn [step fst snd]; try done.
  - by rewrite (all_requests_hit self w l).
  - unfold Provides.new_requests. by rewrite (all_requests_hit self w l).
  - unfold Provides.check_requests. by rewrite (all_requests_hit self w l).
  - unfold Provides.dispatch, Provides.check_requests.
    rewrite (all_requests_hit self w l) by done. by case_match.
Qed.

Lemma run_keeps_cache (ops : list Op) (st : OpenStackIntegrationProvides * World)
    (l : list IntegrationRequest) :
  _all_requests st.1 = Some l → _all_requests (run ops st).1 = Some l.
Proof.
  revert st. induction ops as [|op ops IH]; intros st Hl; [done|].
  apply (IH (step st op)). by apply step_keeps_cache.
Qed.

(** Every operation but a change of the joined units leaves them, and with
    them the coherence of the memoised list, as they are. *)
Lemma publish_units (r : IntegrationRequest) (d : PyDict) (w : World) :
  all_joined_units (Request.publish r d w) = all_joined_units w.
Proof. done. Qed.

Lemma step_units (st : OpenStackIntegrationProvides * World) (op : Op) :
  keeps_units op = true →
  all_joined_units (step st op).2 = all_joined_units st.2.
Proof.
  destruct st as [self w]. intros Hop.
  destruct op; cbn [step fst snd]; try done.
  - unfold Provides.check_requests.
    destruct (Provides.all_requests self w) as [all self'].
    cbn [snd clear_flag all_joined_units]. apply toggle_flag_frame.
  - unfold Provides.dispatch, Provides.check_requests.
    destruct (is_flag_set _ w); [|done].
    destruct (Provides.all_requests self w) as [all self'].
    cbn [snd clear_flag all_joined_units]. apply toggle_flag_frame.
  - unfold Call.set_credentials. by destruct (bind_arguments _ _ _).
  - unfold Call.set_lbaas_config. by destruct (bind_arguments _ _ _).
Qed.

Lemma step_cache (st : OpenStackIntegrationProvides * World) (op : Op) :
  _all_requests (step st op).1 = _all_requests st.1
  ∨ (_all_requests st.1 = None
     ∧ _all_requests (step st op).1
       = Some (map mkIntegrationRequest (all_joined_units st.2))).
Proof.
  destruct (_all_requests st.1) as [l|] eqn:E.
  { left. by apply step_keeps_cache. }
  destruct st as [self w]. cbn [fst snd] in *.
  destruct op; cbn [step fst snd]; rewrite ?E; auto;
    unfold Provides.dispatch, Provides.new_requests, Provides.check_requests,
      Provides.all_requests; rewrite E; cbn; auto.
  destruct (is_flag_set _ w); cbn; auto.
Qed.

Lemma step_keeps_coherent (st : OpenStackIntegrationProvides * World) (op : Op) :
  keeps_units op = true →
  cache_coherent st.1 st.2 → cache_coherent (step st op).1 (step st op).2.
Proof.
  intros Hop Hc. unfold cache_coherent in *.
  rewrite (step_units st op Hop).
  destruct (step_cache st op) as [->|[_ ->]]; done.
Qed.

Lemma run_keeps_coherent (ops : list Op) (st : OpenStackIntegrationProvides * World) :
  forallb keeps_units ops = true →
  cache_coherent st.1 st.2 → cache_coherent (run ops st).1 (run ops st).2.
Proof.
  revert st. induction ops as [|op ops IH]; intros st Hops Hc; [done|].
  cbn in Hops. apply andb_true_iff in Hops as [Hop Hops].
  apply (IH (step st op) Hops). by apply step_keeps_coherent.
Qed.

(** C5: the first read of [all_requests] on an instance stores the list;
    every later read on that instance, whatever was called in between and
    whatever units are joined by then, returns the stored list and leaves the
    instance as it is.  The later reads do not depend on the joined units. *)
Theorem all_requests_memoized
    (self : OpenStackIntegrationProvides) (w : World) (ops : list Op) (w' : World) :
  let '(requests, self1) := Provides.all_requests self w in
  let '(self2, w2) := run ops (self1, w') in
  _all_requests self1 = Some requests
  ∧ Provides.all_requests self1 w' = (requests, self1)
  ∧ Provides.all_requests self2 w2 = (requests, self2).
Proof.
  pose proof (all_requests_cached self w) as Hc.
  destruct (Provides.all_requests self w) as [requests self1]. cbn in Hc.
  pose proof (run_keeps_cache ops (self1, w') requests Hc) as Hr.
  destruct (run ops (self1, w')) as [self2 w2]. cbn in Hr.
  split; [done|]. split; by apply all_requests_hit.
Qed.

(** ** new_requests *)

Lemma is_changed_not_has_credentials (r : IntegrationRequest) (w : World) :
  Request.is_changed r w ↔ Request.has_credentials r w = false.
Proof.
  unfold Request.is_changed. by destruct (Request.has_credentials r w).
Qed.

(** C3, the claim as it stands fails: on an instance that has not read
    [all_requests] yet, reading [new_requests] stores the request list in the
    instance.  The instance is not what it was before, and the difference
    shows: once the unit has left, the instance that was read still answers
    with the stored request, the one that was not read answers with none. *)
Lemma new_requests_stores_the_list :
  let self' := (Provides.new_requests Sample.endpoint Sample.one_unit).2 in
  ¬ (self' = Sample.endpoint)
  ∧ _all_requests Sample.endpoint = None
  ∧ _all_requests self' = Some [Sample.request0]
  ∧ (Provides.all_requests self' Sample.no_units).1 = [Sample.request0]
  ∧ (Provides.all_requests Sample.endpoint Sample.no_units).1 = [].
Proof.
  cbv zeta. split; [|repeat split; reflexivity].
  intros H. discriminate H.
Qed.

(** C3, amended: [new_requests] is [all_requests] filtered by [is_changed],
    that is by the absence of credentials, in the order of [all_requests].
    It reads the flags, the published data and the joined units without
    writing any of them (it returns no new [World]); what it does to the
    instance is what reading [all_requests] does: an instance that already
    holds its list is left as it is, and one that does not holds it
    afterwards. *)
Theorem new_requests_is_filtered_all_requests
    (self : OpenStackIntegrationProvides) (w : World) :
  let '(all, self_all) := Provides.all_requests self w in
  let '(new, self_new) := Provides.new_requests self w in
  new = filter (λ r, Request.has_credentials r w = false) all
  ∧ new = filter (λ r, Request.is_changed r w) all
  ∧ new `sublist_of` all
  ∧ (∀ r, r ∈ new ↔ r ∈ all ∧ Request.has_credentials r w = false)
  ∧ self_new = self_all
  ∧ endpoint_name self_new = endpoint_name self
  ∧ _all_requests self_new = Some all
  ∧ (is_Some (_all_requests self) → self_new = self).
Proof.
  pose proof (all_requests_endpoint_name self w) as Hn.
  pose proof (all_requests_cached self w) as Hc.
  unfold Provides.new_requests.
  destruct (Provides.all_requests self w) as [all self_all] eqn:Hall.
  cbn [fst snd] in *.
  assert (filter (λ r, Request.is_changed r w) all
          = filter (λ r, Request.has_credentials r w = false) all) as Hf.
  { apply list_filter_iff. intros r. apply is_changed_not_has_credentials. }
  split; [by rewrite Hf|]. split; [done|].
  split; [rewrite Hf; apply sublist_filter|].
  split; [intros r; rewrite Hf, list_elem_of_filter; tauto|].
  split; [done|]. split; [done|]. split; [done|].
  intros [l Hl]. rewrite (all_requests_hit self w l Hl) in Hall. congruence.
Qed.

Lemma new_requests_is_filtered_all_requests_witness :
  (Provides.new_requests (mkProvides "openstack" (Some [Sample.request0]))
     Sample.one_unit).2
  = mkProvides "openstack" (Some [Sample.request0]).
Proof.
  pose proof (new_requests_is_filtered_all_requests
                (mkProvides "openstack" (Some [Sample.request0]))
                Sample.one_unit) as H.
  cbv beta iota zeta delta [Provides.all_requests Provides.new_requests
                            _all_requests] in H.
  apply H. cbn. eauto.
Defined.

(** ** check_requests *)

Lemma positive_length_nonempty {A : Type} (l : list A) :
  (0 <? length l)%nat = true ↔ l ≠ [].
Proof. destruct l; cbn; split; done. Qed.

(** C2, the claim as it stands fails: the only joined unit already has
    credentials, so [new_requests] is empty, and the change notification
    still raises the requests-pending flag. *)
Lemma check_requests_pending_although_answered :
  let w' := (Provides.check_requests Sample.endpoint Sample.answered).2 in
  (Provides.all_requests Sample.endpoint Sample.answered).1 = [Sample.request0]
  ∧ Request.has_credentials Sample.request0 Sample.answered = true
  ∧ (Provides.new_requests Sample.endpoint Sample.answered).1 = []
  ∧ is_flag_set (Provides.expand_name Sample.endpoint "requests-pending") w' = true
  ∧ ¬ (is_flag_set (Provides.expand_name Sample.endpoint "requests-pending") w' = true
       ↔ (Provides.new_requests Sample.endpoint Sample.answered).1 ≠ []).
Proof.
  assert (is_flag_set (Provides.expand_name Sample.endpoint "requests-pending")
            (Provides.check_requests Sample.endpoint Sample.answered).2 = true)
    as Hset by (by vm_compute).
  assert ((Provides.new_requests Sample.endpoint Sample.answered).1 = [])
    as Hnew by (by vm_compute).
  cbv zeta. repeat split; try done; try (by vm_compute).
  intros [Hcontra _]. by apply Hcontra.
Qed.

(** C2, amended: on a change notification [check_requests] raises the
    requests-pending flag exactly when [all_requests] is not empty, whether
    or not those requests have credentials, and clears it otherwise; then it
    clears the changed flag.  No other flag, no published data and no joined
    unit is touched, and the instance is left as reading [all_requests]
    leaves it.  On an instance that computes its list now, the flag is
    raised exactly when some unit has joined; with no joined unit it is
    cleared. *)
Theorem check_requests_follows_all_requests
    (self : OpenStackIntegrationProvides) (w : World) :
  let pending := Provides.expand_name self "requests-pending" in
  let changed := Provides.expand_name self "changed" in
  let '(all, self_all) := Provides.all_requests self w in
  let '(self', w') := Provides.check_requests self w in
  (pending ∈ flags w' ↔ all ≠ [])
  ∧ (changed ∉ flags w')
  ∧ (∀ f, f ≠ pending → f ≠ changed → (f ∈ flags w' ↔ f ∈ flags w))
  ∧ to_publish w' = to_publish w
  ∧ all_joined_units w' = all_joined_units w
  ∧ self' = self_all
  ∧ (_all_requests self = None → (pending ∈ flags w' ↔ all_joined_units w ≠ []))
  ∧ (_all_requests self = None → all_joined_units w = [] → pending ∉ flags w').
Proof.
  intros pending changed.
  pose proof (pending_ne_changed self) as Hne. fold pending changed in Hne.
  unfold Provides.check_requests. fold pending changed.
  destruct (Provides.all_requests self w) as [all self_all] eqn:Hall.
  pose proof (positive_length_nonempty all) as Hlen.
  pose proof (toggle_flag_frame pending (0 <? length all)%nat w) as [Hp Hu].
  assert (pending ∈ flags (clear_flag changed
            (toggle_flag pending (0 <? length all)%nat w)) ↔ all ≠ []) as Hiff.
  { cbn [clear_flag flags]. rewrite toggle_flag_flags, <- Hlen.
    destruct (0 <? length all)%nat; set_solver. }
  assert (_all_requests self = None → all = map mkIntegrationRequest (all_joined_units w))
    as Hmade.
  { intros Hnone. unfold Provides.all_requests in Hall. rewrite Hnone in Hall.
    congruence. }
  split; [exact Hiff|]. split; [cbn [clear_flag flags]; set_solver|].
  split.
  { intros f Hf1 Hf2. cbn [clear_flag flags]. rewrite toggle_flag_flags.
    destruct (0 <? length all)%nat; set_solver. }
  split; [exact Hp|]. split; [exact Hu|]. split; [done|]. split.
  - intros Hnone. rewrite Hiff, (Hmade Hnone).
    destruct (all_joined_units w); cbn; split; done.
  - intros Hnone Hnil. rewrite Hiff, (Hmade Hnone), Hnil. cbn. by intros H.
Qed.

Lemma check_requests_follows_all_requests_witness :
  Provides.expand_name Sample.endpoint "requests-pending"
  ∉ flags (Provides.check_requests Sample.endpoint Sample.no_units).2.
Proof.
  pose proof (check_requests_follows_all_requests Sample.endpoint Sample.no_units)
    as H.
  cbv beta iota zeta delta [Provides.all_requests Provides.check_requests
                            _all_requests Sample.endpoint Provides.new] in H.
  apply H; reflexivity.
Defined.

(** ** mark_completed *)

(** C6: [mark_completed] clears the requests-pending flag whatever the state
    of the requests, and nothing else: every other flag, the published data
    of every relation, the joined units and the instance with its memoised
    list stay as they are, and so do [has_credentials], [is_changed] and
    [proxy_config] of every request. *)
Theorem mark_completed_only_clears_pending
    (self : OpenStackIntegrationProvides) (w : World) :
  let pending := Provides.expand_name self "requests-pending" in
  let '(self', w') := Provides.mark_completed self w in
  (pending ∉ flags w')
  ∧ flags w' = flags w ∖ {[pending]}
  ∧ to_publish w' = to_publish w
  ∧ all_joined_units w' = all_joined_units w
  ∧ self' = self
  ∧ _all_requests self' = _all_requests self
  ∧ ∀ r : IntegrationRequest,
      Request._to_publish r w' = Request._to_publish r w
      ∧ Request.has_credentials r w' = Request.has_credentials r w
      ∧ Request.is_changed r w' = Request.is_changed r w
      ∧ Request.proxy_config r w' = Request.proxy_config r w.
Proof.
  cbn. split; [set_solver|]. repeat split.
Qed.

(** ** proxy_config *)

(** C7: when the published data has no ["proxy_config"] entry, or has one
    that is not a mapping, [proxy_config] is the empty mapping.  The
    function is total and its result is a mapping in every case. *)
Theorem proxy_config_absent_or_malformed (self : IntegrationRequest) (w : World) :
  (Request._to_publish self w !! "proxy_config" = None
   ∨ ∃ v, Request._to_publish self w !! "proxy_config" = Some v
          ∧ isinstance_dict v = false) →
  Request.proxy_config self w = [].
Proof.
  unfold Request.proxy_config.
  intros [-> | (v & -> & Hv)]; [done|].
  rewrite Hv. by rewrite orb_true_r.
Qed.

Lemma proxy_config_absent_or_malformed_witness :
  Request.proxy_config Sample.request0 Sample.one_unit = []
  ∧ Request.proxy_config Sample.request0
      (Request.set_proxy_config Sample.request0 (PStr "host=proxy.example")
         Sample.one_unit) = [].
Proof.
  split.
  - apply (proxy_config_absent_or_malformed Sample.request0 Sample.one_unit).
    left. reflexivity.
  - apply (proxy_config_absent_or_malformed Sample.request0).
    right. exists (PStr "host=proxy.example"). split; reflexivity.
Defined.

Lemma py_or_str_or_none (v : PyVal) :
  str_or_none v = true → py_or v (PStr "") = null_to_empty v.
Proof.
  destruct v as [| | |s| |]; try done.
  intros _. unfold py_or. cbn.
  destruct (String.eqb_spec s ""); by subst.
Qed.

(** C8: after [set_proxy_config(m)], for a mapping [m] from strings to
    strings or nulls, [proxy_config] is [m] with each null replaced by the
    empty string and every other item as it was, in the same order. *)
Theorem proxy_config_roundtrip
    (self : IntegrationRequest) (m : PyDict) (w : World) :
  Forall (λ kv, str_or_none kv.2 = true) m →
  Request.proxy_config self (Request.set_proxy_config self (PDict m) w)
  = map (λ kv, (kv.1, null_to_empty kv.2)) m.
Proof.
  intros Hm. unfold Request.proxy_config, Request.set_proxy_config.
  rewrite to_publish_publish_same by done.
  rewrite dict_update_singleton.
  destruct m as [|kv m]; [done|].
  cbn [truthy isinstance_dict negb orb].
  apply map_ext_Forall.
  eapply Forall_impl; [exact Hm|].
  intros [k v] Hv. cbn in *. by rewrite py_or_str_or_none.
Qed.

Lemma proxy_config_roundtrip_witness :
  Request.proxy_config Sample.request0
    (Request.set_proxy_config Sample.request0
       (PDict [ ("host", PStr "proxy.example"); ("port", PNone) ])
       Sample.one_unit)
  = [ ("host", PStr "proxy.example"); ("port", PStr "") ].
Proof.
  apply (proxy_config_roundtrip Sample.request0 Sample.proxy Sample.one_unit).
  repeat constructor.
Defined.

(** ** Argument binding *)

Section binding_facts.
Implicit Types (env : gmap string PyVal) (kwargs : PyDict) (args : list PyVal).
Implicit Types (params : list (string * option PyVal)) (k : string).

Lemma dict_update_lookup (m : gmap string PyVal) (d : PyDict) k (v : PyVal) :
  NoDup d.*1 → (k, v) ∈ d → dict_update m d !! k = Some v.
Proof.
  revert m. induction d as [|[k' v'] d IH]; intros m Hnd Hin.
  - by apply elem_of_nil in Hin.
  - cbn in Hnd. apply NoDup_cons in Hnd as [Hk' Hnd].
    change (dict_update (<[k' := v']> m) d !! k = Some v).
    apply elem_of_cons in Hin as [Heq|Hin].
    + injection Heq as -> ->.
      rewrite dict_update_lookup_notin by done. apply lookup_insert_eq.
    + by apply IH.
Qed.

Lemma zip_ignores_surplus (names : list string) args (extras : list PyVal) :
  (length names ≤ length args)%nat →
  zip names (args ++ extras) = zip names args.
Proof.
  intros Hlen.
  rewrite <- (zip_with_take_r pair names (args ++ extras)).
  rewrite take_app_le by done. apply zip_with_take_r.
Qed.

Lemma zip_names_bound (names : list string) args :
  (zip names args).*1 = take (length args) names.
Proof.
  rewrite <- (zip_with_take_l pair names args).
  apply fst_zip. rewrite length_take. lia.
Qed.

Lemma bind_keywords_lookup allowed kwargs env env' k :
  bind_keywords allowed kwargs env = Some env' →
  k ∉ kwargs.*1 → env' !! k = env !! k.
Proof.
  revert env. induction kwargs as [|[k' v] kwargs IH]; intros env Hb Hk.
  - by injection Hb as <-.
  - cbn in Hb, Hk. apply not_elem_of_cons in Hk as [Hne Hk].
    destruct (bool_decide (k' ∈ allowed) && bool_decide (env !! k' = None));
      [|done].
    rewrite (IH _ Hb Hk). by apply lookup_insert_ne.
Qed.

Lemma fill_defaults_keeps params env env' k :
  fill_defaults params env = Some env' →
  is_Some (env !! k) → env' !! k = env !! k.
Proof.
  revert env. induction params as [|[n dflt] params IH]; intros env Hf Hk.
  - by injection Hf as <-.
  - cbn in Hf. destruct (env !! n) eqn:En; [by apply (IH env)|].
    destruct dflt as [d|]; [|done].
    assert (n ≠ k) as Hne by (intros ->; rewrite En in Hk; by destruct Hk).
    rewrite (IH _ Hf); rewrite lookup_insert_ne; done.
Qed.

Lemma fill_defaults_default params env env' k (d : PyVal) :
  fill_defaults params env = Some env' →
  NoDup params.*1 → (k, Some d) ∈ params → env !! k = None →
  env' !! k = Some d.
Proof.
  revert env. induction params as [|[n dflt] params IH]; intros env Hf Hnd Hin Hk.
  - by apply elem_of_nil in Hin.
  - cbn in Hf, Hnd. apply NoDup_cons in Hnd as [Hn Hnd].
    apply elem_of_cons in Hin as [Heq|Hin].
    + injection Heq as <- <-. rewrite Hk in Hf.
      rewrite (fill_defaults_keeps _ _ _ k Hf); rewrite lookup_insert_eq; eauto.
    + assert (n ≠ k) as Hne.
      { intros ->. apply Hn. apply list_elem_of_fmap. by exists (k, Some d). }
      destruct (env !! n) eqn:En; [by apply (IH env)|].
      destruct dflt as [d'|]; [|done].
      apply (IH _ Hf); [done..|]. by rewrite lookup_insert_ne.
Qed.

Lemma fill_defaults_total params env env' k :
  fill_defaults params env = Some env' →
  k ∈ params.*1 → is_Some (env' !! k).
Proof.
  revert env. induction params as [|[n dflt] params IH]; intros env Hf Hin.
  - by apply elem_of_nil in Hin.
  - cbn in Hf, Hin. apply elem_of_cons in Hin as [->|Hin].
    + destruct (env !! n) eqn:En.
      * rewrite (fill_defaults_keeps _ _ _ n Hf); rewrite En; eauto.
      * destruct dflt as [d|]; [|done].
        rewrite (fill_defaults_keeps _ _ _ n Hf); rewrite lookup_insert_eq; eauto.
    + destruct (env !! n); [by apply (IH env)|].
      destruct dflt as [d|]; [|done]. by apply (IH _ Hf).
Qed.

(** Surplus positional arguments do not change what a signature with a
    catch-all binds. *)
Lemma bind_arguments_surplus (sg : Signature) args (extras : list PyVal) kwargs :
  sig_varargs sg = true →
  (length (sig_positional sg) ≤ length args)%nat →
  bind_arguments sg (args ++ extras) kwargs = bind_arguments sg args kwargs.
Proof.
  intros Hv Hlen. unfold bind_arguments. rewrite Hv. cbn [negb andb].
  rewrite zip_ignores_surplus; [done|]. by rewrite length_fmap.
Qed.

(** A parameter that the call gives no value, neither by position nor by
    keyword, holds its default. *)
Lemma bind_arguments_default (sg : Signature) args kwargs env k (d : PyVal) :
  bind_arguments sg args kwargs = Returns env →
  NoDup (sig_names sg) →
  (k, Some d) ∈ (sig_positional sg ++ sig_kwonly sg)%list →
  k ∉ take (length args) (sig_positional sg).*1 →
  k ∉ kwargs.*1 →
  env !! k = Some d.
Proof.
  unfold bind_arguments, sig_names. intros Hb Hnd Hin Hpos Hkw.
  destruct (negb (sig_varargs sg) && _); [done|].
  destruct (bind_keywords _ _ _) as [env1|] eqn:Hb1; [|done].
  destruct (fill_defaults _ _) as [env2|] eqn:Hb2; [|done].
  injection Hb as <-.
  apply (fill_defaults_default _ _ _ _ _ Hb2); [by rewrite fmap_app|done|].
  rewrite (bind_keywords_lookup _ _ _ _ _ Hb1 Hkw).
  apply not_elem_of_list_to_map_1. by rewrite zip_names_bound.
Qed.

Lemma bind_arguments_total (sg : Signature) args kwargs env k :
  bind_arguments sg args kwargs = Returns env →
  k ∈ sig_names sg → is_Some (env !! k).
Proof.
  unfold bind_arguments, sig_names. intros Hb Hin.
  destruct (negb (sig_varargs sg) && _); [done|].
  destruct (bind_keywords _ _ _) as [env1|] eqn:Hb1; [|done].
  destruct (fill_defaults _ _) as [env2|] eqn:Hb2; [|done].
  injection Hb as <-.
  apply (fill_defaults_total _ _ _ _ Hb2). by rewrite fmap_app.
Qed.

End binding_facts.

(** ** set_credentials with surplus positional arguments *)

(** C9: any positional arguments after the eight required ones are bound to
    the catch-all and not used: the call returns, and leaves exactly the
    state that the call without them leaves, whatever keyword arguments go
    with it.  With no keyword arguments the record written has the eight
    values and null for the six optional fields. *)
Theorem set_credentials_ignores_surplus
    (self : IntegrationRequest) (a1 a2 a3 a4 a5 a6 a7 a8 : PyVal)
    (extras : list PyVal) (kwargs : PyDict) (w : World) :
  Call.set_credentials self ([a1; a2; a3; a4; a5; a6; a7; a8] ++ extras) kwargs w
  = Call.set_credentials self [a1; a2; a3; a4; a5; a6; a7; a8] kwargs w
  ∧ Call.set_credentials self ([a1; a2; a3; a4; a5; a6; a7; a8] ++ extras) [] w
    = Returns
        (Request.publish self
           (Request.credentials_record a1 a2 a3 a4 a5 a6 a7 a8
              PNone PNone PNone PNone PNone PNone) w).
Proof.
  assert (∀ kw, Call.set_credentials self
                  ([a1; a2; a3; a4; a5; a6; a7; a8] ++ extras) kw w
                = Call.set_credentials self [a1; a2; a3; a4; a5; a6; a7; a8] kw w)
    as Hsame.
  { intros kw. unfold Call.set_credentials.
    rewrite bind_arguments_surplus by (cbn; done || lia).
    by destruct (bind_arguments _ _ _). }
  split; [apply Hsame|]. rewrite Hsame. reflexivity.
Qed.

(** ** set_lbaas_config *)

Lemma lbaas_record_fields (s f m g h e i : PyVal) :
  (Request.lbaas_record s f m g h e i).*1 = lbaas_fields.
Proof. reflexivity. Qed.

Lemma lbaas_fields_NoDup : NoDup lbaas_fields.
Proof. refine (bool_decide_unpack _ _). by vm_compute. Qed.

Lemma set_lbaas_config_sig_NoDup : NoDup (sig_names Call.set_lbaas_config_sig).
Proof. refine (bool_decide_unpack _ _). by vm_compute. Qed.

(** A parameter is not among the first [n] positional ones. *)
Ltac not_among_first :=
  let H := fresh in
  let i := fresh "i" in
  intros H; apply elem_of_take in H as (i & H & ?);
  do 7 (destruct i as [|i]; [first [discriminate H | lia]|]);
  discriminate H.

Lemma lbaas_default_published
    (self : IntegrationRequest) (args : list PyVal) (kwargs : PyDict)
    (env : gmap string PyVal) (w : World) (k : string) (d : PyVal) :
  bind_arguments Call.set_lbaas_config_sig args kwargs = Returns env →
  (k, Some d) ∈ sig_positional Call.set_lbaas_config_sig →
  k ∉ take (length args) (sig_positional Call.set_lbaas_config_sig).*1 →
  k ∉ kwargs.*1 →
  Request._to_publish self
    (Request.set_lbaas_config self
       (arg env "subnet_id") (arg env "floating_network_id")
       (arg env "lb_method") (arg env "manage_security_groups")
       (arg env "has_octavia") (arg env "lb_enabled") (arg env "internal_lb") w)
  !! k = Some d.
Proof.
  intros Hb Hin Hpos Hkw.
  assert (env !! k = Some d) as Hk.
  { apply (bind_arguments_default _ _ _ _ _ _ Hb);
      [apply set_lbaas_config_sig_NoDup | by rewrite app_nil_r | done | done]. }
  unfold Request.set_lbaas_config. rewrite to_publish_publish_same by done.
  apply dict_update_lookup.
  - rewrite lbaas_record_fields. apply lbaas_fields_NoDup.
  - cbn in Hin. unfold Request.lbaas_record.
    rewrite !elem_of_cons, elem_of_nil in Hin.
    destruct Hin as [Hin|[Hin|[Hin|[Hin|[Hin|[Hin|[Hin|[]]]]]]]];
      try discriminate Hin; injection Hin as -> ->;
      unfold arg; rewrite Hk; cbn [default];
      rewrite !elem_of_cons; tauto.
Qed.

(** C10: a call of [set_lbaas_config] with just the four required arguments
    returns, and every call that returns has written the seven fields of the
    LBaaS record in one update of the published data.  When [has_octavia] or
    [lb_enabled] is not supplied, its key is there with the value null, and
    when [internal_lb] is not supplied its key is there with the value
    false. *)
Theorem set_lbaas_config_publishes_seven_fields
    (self : IntegrationRequest) (w : World) :
  (∀ s f m g : PyVal,
     Call.set_lbaas_config self [s; f; m; g] [] w
     = Returns
         (Request.publish self
            (Request.lbaas_record s f m g PNone PNone (PBool false)) w))
  ∧ ∀ (args : list PyVal) (kwargs : PyDict) (w' : World),
      Call.set_lbaas_config self args kwargs w = Returns w' →
      (∃ s f m g h e i : PyVal,
         w' = Request.publish self (Request.lbaas_record s f m g h e i) w)
      ∧ (∀ k, k ∈ lbaas_fields → is_Some (Request._to_publish self w' !! k))
      ∧ ((length args ≤ 4)%nat → "has_octavia" ∉ kwargs.*1 →
         Request._to_publish self w' !! "has_octavia" = Some PNone)
      ∧ ((length args ≤ 5)%nat → "lb_enabled" ∉ kwargs.*1 →
         Request._to_publish self w' !! "lb_enabled" = Some PNone)
      ∧ ((length args ≤ 6)%nat → "internal_lb" ∉ kwargs.*1 →
         Request._to_publish self w' !! "internal_lb" = Some (PBool false)).
Proof.
  split; [reflexivity|].
  intros args kwargs w'. unfold Call.set_lbaas_config.
  destruct (bind_arguments _ _ _) as [env|] eqn:Hb; [|done].
  intros Hw. injection Hw as <-.
  split; [by repeat eexists|]. split.
  { intros k Hk. unfold Request.set_lbaas_config.
    rewrite to_publish_publish_same by done.
    apply dict_update_is_Some. left. by rewrite lbaas_record_fields. }
  repeat split; intros Hlen Hkw;
    apply (lbaas_default_published self args kwargs env w _ _ Hb);
    try exact Hkw; try (cbn; rewrite !elem_of_cons; tauto);
    cbn [fmap list_fmap sig_positional Call.set_lbaas_config_sig fst];
    not_among_first.
Qed.

Lemma set_lbaas_config_publishes_seven_fields_witness :
  let w' :=
    Request.publish Sample.request0
      (Request.lbaas_record (PStr "subnet-1") (PStr "net-ext") (PStr "ROUND_ROBIN")
         (PBool true) PNone PNone (PBool false)) Sample.one_unit in
  Request._to_publish Sample.request0 w' !! "has_octavia" = Some PNone
  ∧ Request._to_publish Sample.request0 w' !! "lb_enabled" = Some PNone
  ∧ Request._to_publish Sample.request0 w' !! "internal_lb" = Some (PBool false).
Proof.
  pose proof (set_lbaas_config_publishes_seven_fields Sample.request0 Sample.one_unit)
    as [_ H].
  specialize (H [PStr "subnet-1"; PStr "net-ext"; PStr "ROUND_ROBIN"; PBool true]
                [] _ eq_refl) as (_ & _ & H1 & H2 & H3).
  cbv zeta. split; [|split].
  - apply H1; [cbn; lia | cbn; apply not_elem_of_nil].
  - apply H2; [cbn; lia | cbn; apply not_elem_of_nil].
  - apply H3; [cbn; lia | cbn; apply not_elem_of_nil].
Defined.

(** ** How writes compose *)

Section publish_facts.
Implicit Types (w : World) (m : gmap string PyVal) (d : PyDict) (k : string).
Implicit Types (r self : IntegrationRequest).

(** What [update] leaves under a key it writes does not depend on what was
    there before. *)
Lemma dict_update_lookup_in m m' d k :
  k ∈ d.*1 → dict_update m d !! k = dict_update m' d !! k.
Proof.
  revert m m'. induction d as [|[k' v] d IH]; intros m m' Hk.
  - by apply elem_of_nil in Hk.
  - change (dict_update (<[k' := v]> m) d !! k = dict_update (<[k' := v]> m') d !! k).
    destruct (decide (k ∈ d.*1)) as [Hin|Hout]; [by apply IH|].
    cbn in Hk. apply elem_of_cons in Hk as [->|Hk]; [|done].
    rewrite !dict_update_lookup_notin by done.
    by rewrite !lookup_insert_eq.
Qed.

Lemma dict_update_overwrite m d1 d2 :
  (∀ k, k ∈ d1.*1 → k ∈ d2.*1) →
  dict_update (dict_update m d1) d2 = dict_update m d2.
Proof.
  intros Hsub. apply map_eq. intros k.
  destruct (decide (k ∈ d2.*1)) as [Hin|Hout].
  - by apply dict_update_lookup_in.
  - rewrite !dict_update_lookup_notin; auto.
Qed.

Lemma dict_update_commute m d1 d2 :
  (∀ k, k ∈ d1.*1 → k ∉ d2.*1) →
  dict_update (dict_update m d1) d2 = dict_update (dict_update m d2) d1.
Proof.
  intros Hdis. apply map_eq. intros k.
  destruct (decide (k ∈ d1.*1)) as [Hin1|Hout1].
  - rewrite (dict_update_lookup_notin _ d2) by auto.
    by apply dict_update_lookup_in.
  - rewrite (dict_update_lookup_notin _ d1 k) by done.
    destruct (decide (k ∈ d2.*1)) as [Hin2|Hout2].
    + by apply dict_update_lookup_in.
    + by rewrite !dict_update_lookup_notin.
Qed.

Lemma publish_overwrite self d1 d2 w :
  (∀ k, k ∈ d1.*1 → k ∈ d2.*1) →
  Request.publish self d2 (Request.publish self d1 w) = Request.publish self d2 w.
Proof.
  intros Hsub. unfold Request.publish at 1.
  rewrite to_publish_publish_same by done.
  unfold Request.publish. cbn [flags to_publish all_joined_units].
  by rewrite insert_insert_eq, dict_update_overwrite.
Qed.

Lemma publish_commute r1 r2 d1 d2 w :
  (∀ k, k ∈ d1.*1 → k ∉ d2.*1) →
  Request.publish r2 d2 (Request.publish r1 d1 w)
  = Request.publish r1 d1 (Request.publish r2 d2 w).
Proof.
  intros Hdis. unfold Request.publish at 1 3.
  destruct (decide (relation (_unit r2) = relation (_unit r1))) as [Heq|Hne].
  - rewrite !to_publish_publish_same by done.
    unfold Request.publish. cbn [flags to_publish all_joined_units].
    rewrite Heq, !insert_insert_eq.
    rewrite (to_publish_same_relation r1 r2 w) by done.
    by rewrite dict_update_commute.
  - rewrite !to_publish_publish_other by done.
    unfold Request.publish. cbn [flags to_publish all_joined_units].
    by rewrite insert_insert_ne.
Qed.

(** Reads of a request see the published data only. *)
Lemma has_credentials_ext r w w' :
  to_publish w = to_publish w' →
  Request.has_credentials r w = Request.has_credentials r w'.
Proof.
  intros H. unfold Request.has_credentials, Request._to_publish. by rewrite H.
Qed.

Lemma proxy_config_publish self r d w :
  "proxy_config" ∉ d.*1 →
  Request.proxy_config r (Request.publish self d w) = Request.proxy_config r w.
Proof.
  intros Hk. unfold Request.proxy_config.
  destruct (decide (relation (_unit r) = relation (_unit self))) as [Heq|Hne].
  - rewrite to_publish_publish_same by done.
    rewrite dict_update_lookup_notin by done.
    by rewrite (to_publish_same_relation self r w).
  - by rewrite to_publish_publish_other.
Qed.

End publish_facts.

(** Membership in a list of field names, decided by computation. *)
Lemma fields_disjoint (l1 l2 : list string) :
  bool_decide (Forall (λ k, k ∉ l2) l1) = true → ∀ k, k ∈ l1 → k ∉ l2.
Proof.
  intros H%bool_decide_eq_true k Hk.
  by apply (proj1 (Forall_forall _ _) H).
Qed.

Lemma fields_included (l1 l2 : list string) :
  bool_decide (Forall (λ k, k ∈ l2) l1) = true → ∀ k, k ∈ l1 → k ∈ l2.
Proof.
  intros H%bool_decide_eq_true k Hk.
  by apply (proj1 (Forall_forall _ _) H).
Qed.

Lemma credentials_record_fields
    (a1 a2 a3 a4 a5 a6 a7 a8 k1 k2 k3 k4 k5 k6 : PyVal) :
  (Request.credentials_record a1 a2 a3 a4 a5 a6 a7 a8 k1 k2 k3 k4 k5 k6).*1
  = credentials_fields.
Proof. reflexivity. Qed.

(** ** What one operation does to the published data *)

Lemma step_self_of_setter (st : OpenStackIntegrationProvides * World) (op : Op)
    (kind : RecordKind) :
  setter_kind op = Some kind → (step st op).1 = st.1.
Proof. destruct st, op; done. Qed.

(** A setter call either raises and changes nothing, or performs one update
    of its request's relation with keys of its own record. *)
Lemma setter_effect (op : Op) (kind : RecordKind) (r : IntegrationRequest) :
  setter_kind op = Some kind → setter_request op = Some r →
  (∀ st, step st op = st)
  ∨ ∃ d : PyDict,
      d.*1 = kind_fields kind
      ∧ ∀ st, step st op = (st.1, Request.publish r d st.2).
Proof.
  destruct op; try done; intros [= <-] [= <-].
  - unfold step, Call.set_credentials.
    destruct (bind_arguments _ _ _) as [env|e]; [|left; by intros []].
    right. eexists. split; [|by intros []]. reflexivity.
  - unfold step, Call.set_lbaas_config.
    destruct (bind_arguments _ _ _) as [env|e]; [|left; by intros []].
    right. eexists. split; [|by intros []]. reflexivity.
  - right. eexists. split; [|by intros []]. reflexivity.
  - right. eexists. split; [|by intros []]. reflexivity.
Qed.

Lemma setter_returns_publishes (op : Op) (kind : RecordKind) (r : IntegrationRequest) :
  setter_kind op = Some kind → setter_request op = Some r →
  setter_returns op = true →
  ∃ d : PyDict,
    d.*1 = kind_fields kind
    ∧ ∀ st, step st op = (st.1, Request.publish r d st.2).
Proof.
  destruct op; try done; intros [= <-] [= <-]; cbn [setter_returns].
  - unfold step, Call.set_credentials.
    destruct (bind_arguments _ _ _) as [env|e]; [intros _|done].
    eexists. split; [|by intros []]. reflexivity.
  - unfold step, Call.set_lbaas_config.
    destruct (bind_arguments _ _ _) as [env|e]; [intros _|done].
    eexists. split; [|by intros []]. reflexivity.
  - intros _. eexists. split; [|by intros []]. reflexivity.
  - intros _. eexists. split; [|by intros []]. reflexivity.
Qed.

Lemma setter_request_defined (op : Op) (kind : RecordKind) :
  setter_kind op = Some kind → ∃ r, setter_request op = Some r.
Proof. destruct op; try done; eauto. Qed.

(** Everything that is not a setter call leaves the published data alone. *)
Lemma step_to_publish (st : OpenStackIntegrationProvides * World) (op : Op) :
  setter_kind op = None → to_publish (step st op).2 = to_publish st.2.
Proof.
  destruct st as [self w]. destruct op; try done; intros _; cbn [step snd].
  - unfold Provides.check_requests.
    destruct (Provides.all_requests self w) as [all self'].
    cbn [snd clear_flag to_publish]. apply toggle_flag_frame.
  - unfold Provides.dispatch, Provides.check_requests.
    destruct (is_flag_set _ w); [|done].
    destruct (Provides.all_requests self w) as [all self'].
    cbn [snd clear_flag to_publish]. apply toggle_flag_frame.
Qed.

Lemma kind_fields_disjoint (k1 k2 : RecordKind) :
  k1 ≠ k2 → ∀ x, x ∈ kind_fields k1 → x ∉ kind_fields k2.
Proof.
  intros Hne. apply fields_disjoint.
  destruct k1, k2; try done; by vm_compute.
Qed.

Lemma credentials_not_a_field (kind : RecordKind) :
  "credentials" ∉ kind_fields kind.
Proof.
  refine (bool_decide_unpack _ _). destruct kind; by vm_compute.
Qed.

Lemma step_has_credentials (st : OpenStackIntegrationProvides * World) (op : Op)
    (r : IntegrationRequest) :
  Request.has_credentials r (step st op).2 = Request.has_credentials r st.2.
Proof.
  destruct (setter_kind op) as [kind|] eqn:Hk.
  - destruct (setter_request_defined op kind Hk) as [r' Hr'].
    destruct (setter_effect op kind r' Hk Hr') as [Hid|(d & Hd & Hpub)].
    + by rewrite Hid.
    + rewrite Hpub. cbn [snd]. apply has_credentials_publish.
      rewrite Hd. apply credentials_not_a_field.
  - apply has_credentials_ext. by apply step_to_publish.
Qed.

Lemma run_has_credentials (ops : list Op) (st : OpenStackIntegrationProvides * World)
    (r : IntegrationRequest) :
  Request.has_credentials r (run ops st).2 = Request.has_credentials r st.2.
Proof.
  revert st. induction ops as [|op ops IH]; intros st; [done|].
  change (run (op :: ops) st) with (run ops (step st op)).
  by rewrite IH, step_has_credentials.
Qed.

Lemma proxy_config_ext (r : IntegrationRequest) (w w' : World) :
  to_publish w = to_publish w' →
  Request.proxy_config r w = Request.proxy_config r w'.
Proof.
  intros H. unfold Request.proxy_config, Request._to_publish. by rewrite H.
Qed.

Lemma step_proxy_config (st : OpenStackIntegrationProvides * World) (op : Op)
    (r : IntegrationRequest) :
  setter_kind op ≠ Some ProxyConfigRecord →
  Request.proxy_config r (step st op).2 = Request.proxy_config r st.2.
Proof.
  intros Hnp. destruct (setter_kind op) as [kind|] eqn:Hk.
  - destruct (setter_request_defined op kind Hk) as [r' Hr'].
    destruct (setter_effect op kind r' Hk Hr') as [Hid|(d & Hd & Hpub)].
    + by rewrite Hid.
    + rewrite Hpub. cbn [snd]. apply proxy_config_publish. rewrite Hd.
      apply (kind_fields_disjoint ProxyConfigRecord kind); [congruence|].
      apply list_elem_of_singleton. done.
  - apply proxy_config_ext. by apply step_to_publish.
Qed.

(** ** Properties of the setters *)

(** X1: [set_block_storage_config] leaves its three arguments under the keys
    [bs_version], [trust_device_path] and [ignore_volume_az] of the request's
    relation, keeps every other key of that relation, and touches neither the
    data of other relations nor the flags nor the joined units. *)
Theorem set_block_storage_config_written
    (self r : IntegrationRequest) (b t i : PyVal) (w : World) :
  let w' := Request.set_block_storage_config self b t i w in
  Request._to_publish self w' !! "bs_version" = Some b
  ∧ Request._to_publish self w' !! "trust_device_path" = Some t
  ∧ Request._to_publish self w' !! "ignore_volume_az" = Some i
  ∧ (∀ k, k ∉ block_storage_fields →
       Request._to_publish self w' !! k = Request._to_publish self w !! k)
  ∧ (relation (_unit r) ≠ relation (_unit self) →
       Request._to_publish r w' = Request._to_publish r w)
  ∧ flags w' = flags w
  ∧ all_joined_units w' = all_joined_units w.
Proof.
  cbv zeta. unfold Request.set_block_storage_config.
  rewrite to_publish_publish_same by done.
  assert (NoDup block_storage_fields) as Hnd
    by (refine (bool_decide_unpack _ _); by vm_compute).
  split; [apply dict_update_lookup; [done|]; rewrite !elem_of_cons; tauto|].
  split; [apply dict_update_lookup; [done|]; rewrite !elem_of_cons; tauto|].
  split; [apply dict_update_lookup; [done|]; rewrite !elem_of_cons; tauto|].
  split; [intros k Hk; by apply dict_update_lookup_notin|].
  split; [apply to_publish_publish_other|done].
Qed.

Lemma set_block_storage_config_written_witness :
  let w' :=
    Request.set_block_storage_config Sample.request0
      (PInt 3) (PBool false) (PBool true)
      (Request.set_proxy_config Sample.request0 (PDict Sample.proxy)
         Sample.one_unit) in
  Request._to_publish Sample.request0 w' !! "proxy_config"
  = Some (PDict Sample.proxy)
  ∧ Request._to_publish Sample.worker_request w' = ∅.
Proof.
  pose proof (set_block_storage_config_written Sample.request0
                Sample.worker_request (PInt 3) (PBool false) (PBool true)
                (Request.set_proxy_config Sample.request0 (PDict Sample.proxy)
                   Sample.one_unit)) as (_ & _ & _ & Hk & Hr & _).
  cbv zeta. split.
  - rewrite Hk; [reflexivity|].
    refine (bool_decide_unpack _ _). by vm_compute.
  - rewrite Hr; [reflexivity|]. intros H. discriminate H.
Defined.

(** X2: the published data belongs to the relation, not to the unit.  Two
    requests whose units are of one relation read the same data, so what a
    setter writes through one of them is what the other reads, credentials
    state and proxy configuration included; a request of another relation
    reads what it read before the call. *)
Theorem published_data_is_per_relation
    (self r : IntegrationRequest) (op : Op) (kind : RecordKind)
    (st : OpenStackIntegrationProvides * World) :
  setter_kind op = Some kind → setter_request op = Some self →
  (relation (_unit r) = relation (_unit self) →
     Request._to_publish r (step st op).2 = Request._to_publish self (step st op).2
     ∧ Request.has_credentials r (step st op).2
       = Request.has_credentials self (step st op).2
     ∧ Request.proxy_config r (step st op).2
       = Request.proxy_config self (step st op).2)
  ∧ (relation (_unit r) ≠ relation (_unit self) →
     Request._to_publish r (step st op).2 = Request._to_publish r st.2
     ∧ Request.proxy_config r (step st op).2 = Request.proxy_config r st.2).
Proof.
  intros Hk Hr. split.
  - intros Heq.
    pose proof (to_publish_same_relation self r (step st op).2 Heq) as Hsame.
    unfold Request.has_credentials, Request.proxy_config. by rewrite Hsame.
  - intros Hne.
    assert (Request._to_publish r (step st op).2 = Request._to_publish r st.2)
      as Hsame.
    { destruct (setter_effect op kind self Hk Hr) as [Hid|(d & _ & Hpub)].
      - by rewrite Hid.
      - rewrite Hpub. by apply to_publish_publish_other. }
    unfold Request.proxy_config. by rewrite Hsame.
Qed.

Lemma published_data_is_per_relation_witness :
  let st := (Sample.endpoint, Sample.three_units) in
  let op := OpSetProxyConfig Sample.request0 (PDict Sample.proxy) in
  Request.proxy_config Sample.request1 (step st op).2
  = Request.proxy_config Sample.request0 (step st op).2
  ∧ Request.proxy_config Sample.worker_request (step st op).2
    = Request.proxy_config Sample.worker_request Sample.three_units.
Proof.
  pose proof (published_data_is_per_relation Sample.request0 Sample.request1
                (OpSetProxyConfig Sample.request0 (PDict Sample.proxy))
                ProxyConfigRecord (Sample.endpoint, Sample.three_units)
                eq_refl eq_refl) as [Hsame _].
  pose proof (published_data_is_per_relation Sample.request0 Sample.worker_request
                (OpSetProxyConfig Sample.request0 (PDict Sample.proxy))
                ProxyConfigRecord (Sample.endpoint, Sample.three_units)
                eq_refl eq_refl) as [_ Hother].
  cbv zeta. split.
  - apply Hsame. reflexivity.
  - apply Hother. intros H. discriminate H.
Defined.

(** X3: a setter call that returns replaces what an earlier call of the same
    setter on the same request wrote: the state after both calls is the state
    after the second call alone. *)
Theorem setter_overwrites_its_record
    (op1 op2 : Op) (kind : RecordKind) (r : IntegrationRequest)
    (st : OpenStackIntegrationProvides * World) :
  setter_kind op1 = Some kind → setter_kind op2 = Some kind →
  setter_request op1 = Some r → setter_request op2 = Some r →
  setter_returns op2 = true →
  step (step st op1) op2 = step st op2.
Proof.
  intros Hk1 Hk2 Hr1 Hr2 Hret.
  destruct (setter_returns_publishes op2 kind r Hk2 Hr2 Hret)
    as (d2 & Hd2 & Hpub2).
  destruct (setter_effect op1 kind r Hk1 Hr1) as [Hid1|(d1 & Hd1 & Hpub1)];
    [by rewrite Hid1|].
  rewrite Hpub1, !Hpub2. cbn [fst snd].
  rewrite publish_overwrite; [done|]. intros k. by rewrite Hd1, Hd2.
Qed.

Lemma setter_overwrites_its_record_witness :
  let st := (Sample.endpoint, Sample.one_unit) in
  step (step st (OpSetCredentials Sample.request0
                   [PStr "http://old"; PNone; PNone; PNone; PNone; PNone; PNone; PNone]
                   [("version", PStr "2")]))
       (OpSetCredentials Sample.request0 Sample.credentials [])
  = step st (OpSetCredentials Sample.request0 Sample.credentials []).
Proof.
  cbv zeta.
  apply (setter_overwrites_its_record _ _ CredentialsRecord Sample.request0);
    reflexivity.
Defined.

(** X4: setter calls for different records write different keys, so their
    order does not matter, whether they are made on one request, on requests
    of one relation or on requests of different relations. *)
Theorem setters_of_different_records_commute
    (op1 op2 : Op) (kind1 kind2 : RecordKind)
    (st : OpenStackIntegrationProvides * World) :
  setter_kind op1 = Some kind1 → setter_kind op2 = Some kind2 →
  kind1 ≠ kind2 →
  step (step st op1) op2 = step (step st op2) op1.
Proof.
  intros Hk1 Hk2 Hne.
  destruct (setter_request_defined op1 kind1 Hk1) as [r1 Hr1].
  destruct (setter_request_defined op2 kind2 Hk2) as [r2 Hr2].
  destruct (setter_effect op1 kind1 r1 Hk1 Hr1) as [Hid1|(d1 & Hd1 & Hpub1)];
    [by rewrite !Hid1|].
  destruct (setter_effect op2 kind2 r2 Hk2 Hr2) as [Hid2|(d2 & Hd2 & Hpub2)];
    [by rewrite !Hid2|].
  rewrite !Hpub1, !Hpub2. cbn [fst snd]. f_equal.
  apply publish_commute. rewrite Hd1, Hd2. by apply kind_fields_disjoint.
Qed.

Lemma setters_of_different_records_commute_witness :
  let st := (Sample.endpoint, Sample.three_units) in
  let creds := OpSetCredentials Sample.request0 Sample.credentials [] in
  let proxy := OpSetProxyConfig Sample.request1 (PDict Sample.proxy) in
  step (step st creds) proxy = step (step st proxy) creds.
Proof.
  cbv zeta.
  apply (setters_of_different_records_commute _ _ CredentialsRecord
           ProxyConfigRecord); [reflexivity|reflexivity|].
  intros H. discriminate H.
Defined.

(** ** What no operation does *)

(** X5: nothing that can happen to an endpoint changes [has_credentials] or
    [is_changed] of any request: not the four setters with whatever
    arguments, not the handlers, not the framework's changes of flags and
    joined units.  In particular no sequence of calls turns a request that
    is new into one that has credentials. *)
Theorem no_operation_sets_has_credentials
    (ops : list Op) (st : OpenStackIntegrationProvides * World)
    (r : IntegrationRequest) :
  Request.has_credentials r (run ops st).2 = Request.has_credentials r st.2
  ∧ Request.is_changed r (run ops st).2 = Request.is_changed r st.2.
Proof.
  unfold Request.is_changed. by rewrite run_has_credentials.
Qed.

Lemma run_units (ops : list Op) (st : OpenStackIntegrationProvides * World) :
  forallb keeps_units ops = true →
  all_joined_units (run ops st).2 = all_joined_units st.2.
Proof.
  revert st. induction ops as [|op ops IH]; intros st Hops; [done|].
  cbn in Hops. apply andb_true_iff in Hops as [Hop Hops].
  change (run (op :: ops) st) with (run ops (step st op)).
  by rewrite IH, step_units.
Qed.

Lemma all_requests_coherent (self : OpenStackIntegrationProvides) (w : World) :
  cache_coherent self w →
  (Provides.all_requests self w).1 = map mkIntegrationRequest (all_joined_units w).
Proof.
  unfold Provides.all_requests, cache_coherent.
  by destruct (_all_requests self).
Qed.

Lemma filter_keeps_all {A : Type} (P : A → Prop) `{∀ x, Decision (P x)}
    (l : list A) :
  (∀ x, x ∈ l → P x) → filter P l = l.
Proof.
  induction l as [|x l IH]; intros Hall; [done|].
  rewrite filter_cons_True by (apply Hall; left).
  f_equal. apply IH. intros y Hy. apply Hall. by right.
Qed.

(** X6: on an endpoint created when no joined unit's relation holds a
    ["credentials"] entry, every joined unit is reported by [new_requests],
    in join order, and goes on being reported whatever setters and handlers
    are called in between, as long as the set of joined units stays the
    same. *)
Theorem every_joined_unit_stays_new
    (name : string) (w : World) (ops : list Op) :
  (∀ u, u ∈ all_joined_units w →
        Request.has_credentials (mkIntegrationRequest u) w = false) →
  forallb keeps_units ops = true →
  let st := run ops (Provides.new name, w) in
  (Provides.new_requests st.1 st.2).1
  = map mkIntegrationRequest (all_joined_units w)
  ∧ map Request.unit_name (Provides.new_requests st.1 st.2).1
    = map unit_name (all_joined_units w).
Proof.
  intros Hnew Hops. cbv zeta.
  pose proof (run_keeps_coherent ops (Provides.new name, w) Hops
                (cache_coherent_new name w)) as Hc.
  pose proof (run_units ops (Provides.new name, w) Hops) as Hu.
  pose proof (λ r, run_has_credentials ops (Provides.new name, w) r) as Hh.
  destruct (run ops (Provides.new name, w)) as [self1 w1]. cbn [fst snd] in *.
  assert ((Provides.new_requests self1 w1).1
          = map mkIntegrationRequest (all_joined_units w)) as Heq.
  { unfold Provides.new_requests. apply all_requests_coherent in Hc.
    destruct (Provides.all_requests self1 w1) as [all self']. cbn [fst] in *.
    subst all. rewrite Hu.
    apply filter_keeps_all. intros r Hr.
    apply list_elem_of_fmap in Hr as (u & -> & Hu').
    apply is_changed_not_has_credentials. rewrite Hh. by apply Hnew. }
  split; [done|]. rewrite Heq.
  change (map Request.unit_name (map mkIntegrationRequest (all_joined_units w)))
    with (Request.unit_name <$> (mkIntegrationRequest <$> all_joined_units w)).
  by rewrite <- list_fmap_compose.
Qed.

Lemma every_joined_unit_stays_new_witness :
  let st :=
    run [ OpDispatch;
          OpSetCredentials Sample.request0 Sample.credentials [];
          OpMarkCompleted;
          OpSetFlag Sample.changed_flag;
          OpDispatch ]
        (Provides.new "openstack", Sample.three_units) in
  map Request.unit_name (Provides.new_requests st.1 st.2).1
  = [ "kubernetes-master/0"; "kubernetes-worker/0"; "kubernetes-master/1" ].
Proof.
  cbv zeta.
  apply (every_joined_unit_stays_new "openstack" Sample.three_units).
  - intros u _. reflexivity.
  - reflexivity.
Defined.

(** X16: only [set_proxy_config] changes what [proxy_config] returns: after
    any sequence of operations without a call of it, every request's
    [proxy_config] is what it was. *)
Theorem proxy_config_only_changed_by_its_setter
    (ops : list Op) (st : OpenStackIntegrationProvides * World)
    (r : IntegrationRequest) :
  Forall (λ op, setter_kind op ≠ Some ProxyConfigRecord) ops →
  Request.proxy_config r (run ops st).2 = Request.proxy_config r st.2.
Proof.
  revert st. induction ops as [|op ops IH]; intros st Hops; [done|].
  apply Forall_cons in Hops as [Hop Hops].
  change (run (op :: ops) st) with (run ops (step st op)).
  by rewrite IH, step_proxy_config.
Qed.

Lemma proxy_config_only_changed_by_its_setter_witness :
  Request.proxy_config Sample.request1
    (run [ OpSetCredentials Sample.request0 Sample.credentials [];
           OpSetBlockStorageConfig Sample.request1 (PInt 3) PNone PNone;
           OpCheckRequests ]
         (Sample.endpoint,
          Request.set_proxy_config Sample.request0 (PDict Sample.proxy)
            Sample.three_units)).2
  = [ ("host", PStr "proxy.example"); ("port", PStr "") ].
Proof.
  rewrite (proxy_config_only_changed_by_its_setter _ _ Sample.request1).
  - reflexivity.
  - repeat constructor; intros H; discriminate H.
Defined.

(** ** How the handlers compose *)

Lemma check_requests_unfold (self : OpenStackIntegrationProvides) (w : World) :
  Provides.check_requests self w
  = ((Provides.all_requests self w).2,
     mkWorld
       ((if (0 <? length (Provides.all_requests self w).1)%nat
         then {[Provides.expand_name self "requests-pending"]} ∪ flags w
         else flags w ∖ {[Provides.expand_name self "requests-pending"]})
        ∖ {[Provides.expand_name self "changed"]})
       (to_publish w) (all_joined_units w)).
Proof.
  unfold Provides.check_requests.
  destruct (Provides.all_requests self w) as [all self']. cbn [fst snd].
  by destruct (0 <? length all)%nat.
Qed.

Lemma expand_name_all_requests (self : OpenStackIntegrationProvides) (w : World)
    (flag : string) :
  Provides.expand_name (Provides.all_requests self w).2 flag
  = Provides.expand_name self flag.
Proof. unfold Provides.expand_name. by rewrite all_requests_endpoint_name. Qed.

Lemma all_requests_again (self : OpenStackIntegrationProvides) (w w' : World) :
  Provides.all_requests (Provides.all_requests self w).2 w'
  = Provides.all_requests self w.
Proof.
  rewrite (all_requests_hit _ w' _ (all_requests_cached self w)).
  by destruct (Provides.all_requests self w).
Qed.

Lemma all_requests_reads_units (self : OpenStackIntegrationProvides) (w w' : World) :
  all_joined_units w = all_joined_units w' →
  Provides.all_requests self w = Provides.all_requests self w'.
Proof. unfold Provides.all_requests. by intros ->. Qed.

(** X7: [check_requests] is idempotent: handling the same notification a
    second time leaves the flags, the published data and the instance as the
    first handling left them. *)
Theorem check_requests_idempotent
    (self : OpenStackIntegrationProvides) (w : World) :
  let st := Provides.check_requests self w in
  Provides.check_requests st.1 st.2 = st.
Proof.
  cbv zeta. rewrite (check_requests_unfold self w). cbn [fst snd].
  rewrite check_requests_unfold, all_requests_again, !expand_name_all_requests.
  cbn [flags to_publish all_joined_units].
  f_equal. f_equal.
  pose proof (pending_ne_changed self) as Hne.
  destruct (0 <? length (Provides.all_requests self w).1)%nat; set_solver.
Qed.

(** X8: the handler clears the flag that triggers it.  Once the framework
    has dispatched a change notification, dispatching again without a new
    notification does nothing; and as long as the changed flag is not set,
    dispatching does nothing at all. *)
Theorem dispatch_runs_once_per_notification
    (self : OpenStackIntegrationProvides) (w : World) :
  let st := Provides.dispatch self w in
  Provides.dispatch st.1 st.2 = st
  ∧ is_flag_set (Provides.expand_name self "changed") st.2 = false
  ∧ (is_flag_set (Provides.expand_name self "changed") w = false → st = (self, w)).
Proof.
  cbv zeta.
  assert (is_flag_set (Provides.expand_name self "changed")
            (Provides.dispatch self w).2 = false) as Hclear.
  { unfold Provides.dispatch.
    destruct (is_flag_set _ w) eqn:Hset; [|done].
    rewrite check_requests_unfold. cbn [snd]. unfold is_flag_set.
    cbn [flags]. apply bool_decide_eq_false. set_solver. }
  split; [|split; [done|]].
  - assert (Provides.expand_name (Provides.dispatch self w).1 "changed"
            = Provides.expand_name self "changed") as Hname.
    { unfold Provides.dispatch. destruct (is_flag_set _ w); [|done].
      rewrite check_requests_unfold. apply expand_name_all_requests. }
    unfold Provides.dispatch at 1. rewrite Hname, Hclear.
    by destruct (Provides.dispatch self w).
  - intros Hoff. unfold Provides.dispatch. by rewrite Hoff.
Qed.

Lemma dispatch_runs_once_per_notification_witness :
  Provides.dispatch (Provides.new "openstack")
    (mkWorld ∅ ∅ [Sample.master0])
  = (Provides.new "openstack", mkWorld ∅ ∅ [Sample.master0]).
Proof.
  apply (dispatch_runs_once_per_notification (Provides.new "openstack")
           (mkWorld ∅ ∅ [Sample.master0])).
  reflexivity.
Defined.

(** X9: [mark_completed] leaves no trace for the next notification.
    Handling a change after [mark_completed] gives the state that handling
    it without [mark_completed] gives, so the flag is raised again as soon
    as the request list is not empty; and [mark_completed] right after the
    handler leaves both flags cleared. *)
Theorem mark_completed_forgotten_by_next_notification
    (self : OpenStackIntegrationProvides) (w : World) :
  let done := Provides.mark_completed self w in
  let handled := Provides.check_requests self w in
  Provides.check_requests done.1 done.2 = handled
  ∧ is_flag_set (Provides.expand_name self "requests-pending")
      (Provides.mark_completed handled.1 handled.2).2 = false
  ∧ is_flag_set (Provides.expand_name self "changed")
      (Provides.mark_completed handled.1 handled.2).2 = false.
Proof.
  cbv zeta. pose proof (pending_ne_changed self) as Hne.
  split; [|split].
  - unfold Provides.mark_completed. cbn [fst snd].
    rewrite !check_requests_unfold.
    rewrite (all_requests_reads_units self (clear_flag _ w) w) by done.
    cbn [clear_flag flags to_publish all_joined_units].
    f_equal. f_equal.
    destruct (0 <? length (Provides.all_requests self w).1)%nat;
      apply set_eq; intros f;
      destruct (decide (f = Provides.expand_name self "requests-pending"));
      set_solver.
  - rewrite check_requests_unfold. unfold Provides.mark_completed, is_flag_set.
    cbn [fst snd clear_flag flags]. rewrite expand_name_all_requests.
    apply bool_decide_eq_false. set_solver.
  - rewrite check_requests_unfold. unfold Provides.mark_completed, is_flag_set.
    cbn [fst snd clear_flag flags]. rewrite expand_name_all_requests.
    apply bool_decide_eq_false. set_solver.
Qed.

(** ** Calls that raise *)

Section binding_errors.
Implicit Types (env : gmap string PyVal) (kwargs : PyDict) (args : list PyVal).
Implicit Types (params : list (string * option PyVal)) (k : string).

Lemma bind_keywords_rejects (allowed : list string) kwargs env k :
  k ∈ kwargs.*1 → k ∉ allowed ∨ is_Some (env !! k) →
  bind_keywords allowed kwargs env = None.
Proof.
  revert env. induction kwargs as [|[k' v] kwargs IH]; intros env Hk Hbad.
  - by apply elem_of_nil in Hk.
  - cbn in Hk |- *. apply elem_of_cons in Hk as [->|Hk].
    + destruct Hbad as [Hout|Hin].
      * by rewrite (bool_decide_eq_false_2 _ Hout).
      * rewrite (bool_decide_eq_false_2 (env !! k' = None)), andb_false_r; [done|].
        intros Hnone. rewrite Hnone in Hin. by destruct Hin.
    + destruct (bool_decide (k' ∈ allowed) && bool_decide (env !! k' = None));
        [|done].
      apply IH; [done|]. destruct Hbad as [Hout|Hin]; [by left|right].
      destruct (decide (k' = k)) as [->|Hne].
      * rewrite lookup_insert_eq. eauto.
      * by rewrite lookup_insert_ne.
Qed.

Lemma fill_defaults_missing params env k :
  NoDup params.*1 → (k, None) ∈ params → env !! k = None →
  fill_defaults params env = None.
Proof.
  revert env. induction params as [|[n dflt] params IH]; intros env Hnd Hin Hk.
  - by apply elem_of_nil in Hin.
  - cbn in Hnd |- *. apply NoDup_cons in Hnd as [Hn Hnd].
    apply elem_of_cons in Hin as [Heq|Hin].
    + injection Heq as <- <-. by rewrite Hk.
    + assert (n ≠ k) as Hne.
      { intros ->. apply Hn. apply list_elem_of_fmap. by exists (k, None). }
      destruct (env !! n); [by apply IH|].
      destruct dflt as [d|]; [|done].
      apply IH; [done..|]. by rewrite lookup_insert_ne.
Qed.

(** A parameter without a default that the call gives no value. *)
Lemma bind_arguments_missing (sg : Signature) args kwargs k :
  NoDup (sig_names sg) →
  (k, None) ∈ (sig_positional sg ++ sig_kwonly sg)%list →
  k ∉ take (length args) (sig_positional sg).*1 →
  k ∉ kwargs.*1 →
  bind_arguments sg args kwargs = Raises TypeError.
Proof.
  unfold bind_arguments, sig_names. intros Hnd Hin Hpos Hkw.
  destruct (negb (sig_varargs sg) && _); [done|].
  destruct (bind_keywords _ _ _) as [env1|] eqn:Hb1; [|done].
  rewrite (fill_defaults_missing _ env1 k); [done|by rewrite fmap_app|done|].
  rewrite (bind_keywords_lookup _ _ _ _ _ Hb1 Hkw).
  apply not_elem_of_list_to_map_1. by rewrite zip_names_bound.
Qed.

(** A keyword that names no parameter, or a parameter that already has its
    value from a positional argument. *)
Lemma bind_arguments_bad_keyword (sg : Signature) args kwargs k :
  k ∈ kwargs.*1 →
  k ∉ sig_names sg ∨ k ∈ take (length args) (sig_positional sg).*1 →
  bind_arguments sg args kwargs = Raises TypeError.
Proof.
  unfold bind_arguments. intros Hk Hbad.
  destruct (negb (sig_varargs sg) && _); [done|].
  rewrite (bind_keywords_rejects _ kwargs _ k); [done|done|].
  destruct Hbad as [Hout|Hpos]; [by left|right].
  apply not_eq_None_Some. intros Hnone.
  apply not_elem_of_list_to_map in Hnone. by rewrite zip_names_bound in Hnone.
Qed.

End binding_errors.

Lemma set_credentials_sig_NoDup : NoDup (sig_names Call.set_credentials_sig).
Proof. refine (bool_decide_unpack _ _). by vm_compute. Qed.

(** X10: a call of [set_credentials] or [set_lbaas_config] that leaves one of
    the parameters without a default without a value, given neither by
    position nor by keyword, raises [TypeError]; nothing is published. *)
Theorem missing_required_argument_raises
    (self : IntegrationRequest) (args : list PyVal) (kwargs : PyDict)
    (k : string) (w : World) :
  k ∉ kwargs.*1 →
  (k ∈ required_parameters Call.set_credentials_sig →
   k ∉ filled_by_position Call.set_credentials_sig (length args) →
   Call.set_credentials self args kwargs w = Raises TypeError)
  ∧ (k ∈ required_parameters Call.set_lbaas_config_sig →
     k ∉ filled_by_position Call.set_lbaas_config_sig (length args) →
     Call.set_lbaas_config self args kwargs w = Raises TypeError).
Proof.
  intros Hkw.
  assert (∀ sg, k ∈ required_parameters sg →
                (k, None) ∈ (sig_positional sg ++ sig_kwonly sg)%list) as Hreq.
  { intros sg Hk. unfold required_parameters in Hk.
    apply list_elem_of_fmap in Hk as ([k' dflt] & -> & Hin).
    apply list_elem_of_filter in Hin as [Hnone Hin]. cbn in *. by subst. }
  split; intros Hk Hpos.
  - unfold Call.set_credentials.
    by rewrite (bind_arguments_missing _ args kwargs k
                  set_credentials_sig_NoDup (Hreq _ Hk) Hpos Hkw).
  - unfold Call.set_lbaas_config.
    by rewrite (bind_arguments_missing _ args kwargs k
                  set_lbaas_config_sig_NoDup (Hreq _ Hk) Hpos Hkw).
Qed.

Lemma missing_required_argument_raises_witness :
  Call.set_credentials Sample.request0 (take 7 Sample.credentials)
    [("version", PStr "3")] Sample.one_unit = Raises TypeError
  ∧ Call.set_lbaas_config Sample.request0 [PStr "subnet-1"]
      [("lb_method", PStr "ROUND_ROBIN"); ("manage_security_groups", PBool true)]
      Sample.one_unit = Raises TypeError.
Proof.
  split.
  - refine (proj1 (missing_required_argument_raises Sample.request0
                     (take 7 Sample.credentials) [("version", PStr "3")]
                     "endpoint_tls_ca" Sample.one_unit _) _ _);
      refine (bool_decide_unpack _ _); by vm_compute.
  - refine (proj2 (missing_required_argument_raises Sample.request0
                     [PStr "subnet-1"]
                     [("lb_method", PStr "ROUND_ROBIN");
                      ("manage_security_groups", PBool true)]
                     "floating_network_id" Sample.one_unit _) _ _);
      refine (bool_decide_unpack _ _); by vm_compute.
Defined.

(** X11: [set_lbaas_config] has no catch-all: a call with more than seven
    positional arguments raises [TypeError] whatever its keyword arguments,
    and publishes nothing. *)
Theorem set_lbaas_config_surplus_raises
    (self : IntegrationRequest) (args : list PyVal) (kwargs : PyDict) (w : World) :
  (7 < length args)%nat →
  Call.set_lbaas_config self args kwargs w = Raises TypeError
  ∧ or_unchanged w (Call.set_lbaas_config self args kwargs w) = w.
Proof.
  intros Hlen.
  assert (Call.set_lbaas_config self args kwargs w = Raises TypeError) as Hr.
  { unfold Call.set_lbaas_config, bind_arguments.
    cbn [sig_varargs Call.set_lbaas_config_sig negb andb].
    rewrite bool_decide_eq_true_2; [done|]. cbn. lia. }
  by rewrite Hr.
Qed.

Lemma set_lbaas_config_surplus_raises_witness :
  Call.set_lbaas_config Sample.request0 Sample.credentials [] Sample.one_unit
  = Raises TypeError.
Proof.
  apply (set_lbaas_config_surplus_raises Sample.request0 Sample.credentials []
           Sample.one_unit).
  cbn. lia.
Defined.

(** X12: in a call of [set_credentials] or [set_lbaas_config], a keyword
    argument that names no parameter, or names a parameter that a positional
    argument of the call already fills, makes the call raise [TypeError]. *)
Theorem keyword_must_name_a_free_parameter
    (self : IntegrationRequest) (args : list PyVal) (kwargs : PyDict)
    (k : string) (w : World) :
  k ∈ kwargs.*1 →
  (k ∉ sig_names Call.set_credentials_sig
   ∨ k ∈ filled_by_position Call.set_credentials_sig (length args) →
   Call.set_credentials self args kwargs w = Raises TypeError)
  ∧ (k ∉ sig_names Call.set_lbaas_config_sig
     ∨ k ∈ filled_by_position Call.set_lbaas_config_sig (length args) →
     Call.set_lbaas_config self args kwargs w = Raises TypeError).
Proof.
  intros Hk. split; intros Hbad.
  - unfold Call.set_credentials.
    by rewrite (bind_arguments_bad_keyword _ args kwargs k Hk Hbad).
  - unfold Call.set_lbaas_config.
    by rewrite (bind_arguments_bad_keyword _ args kwargs k Hk Hbad).
Qed.

Lemma keyword_must_name_a_free_parameter_witness :
  Call.set_credentials Sample.request0 Sample.credentials
    [("credentials", PStr "token")] Sample.one_unit = Raises TypeError
  ∧ Call.set_lbaas_config Sample.request0
      [PStr "subnet-1"; PStr "net-ext"; PStr "ROUND_ROBIN"; PBool true]
      [("subnet_id", PStr "subnet-2")] Sample.one_unit = Raises TypeError.
Proof.
  split.
  - refine (proj1 (keyword_must_name_a_free_parameter Sample.request0
                     Sample.credentials [("credentials", PStr "token")]
                     "credentials" Sample.one_unit _) _).
    + refine (bool_decide_unpack _ _). by vm_compute.
    + left. refine (bool_decide_unpack _ _). by vm_compute.
  - refine (proj2 (keyword_must_name_a_free_parameter Sample.request0
                     [PStr "subnet-1"; PStr "net-ext"; PStr "ROUND_ROBIN"; PBool true]
                     [("subnet_id", PStr "subnet-2")]
                     "subnet_id" Sample.one_unit _) _).
    + refine (bool_decide_unpack _ _). by vm_compute.
    + right. refine (bool_decide_unpack _ _). by vm_compute.
Defined.

(** ** Calls that return *)

(** X13: the required parameters of [set_credentials] may be given by
    keyword instead of by position: giving the first [n] by position and the
    others by name leaves the state that giving all eight by position
    leaves. *)
Theorem set_credentials_required_by_keyword
    (self : IntegrationRequest) (a1 a2 a3 a4 a5 a6 a7 a8 : PyVal)
    (n : nat) (w : World) :
  (n ≤ 8)%nat →
  let args := [a1; a2; a3; a4; a5; a6; a7; a8] in
  let names := (sig_positional Call.set_credentials_sig).*1 in
  Call.set_credentials self (take n args) (drop n (zip names args)) w
  = Call.set_credentials self args [] w.
Proof.
  intros Hn. cbv zeta.
  do 9 (destruct n as [|n]; [reflexivity|]). lia.
Qed.

Lemma set_credentials_required_by_keyword_witness :
  Call.set_credentials Sample.request0
    [ PStr "https://keystone.example:5000/v3"; PStr "RegionOne" ]
    [ ("username", PStr "admin"); ("password", PStr "secret");
      ("user_domain_name", PStr "admin_domain");
      ("project_domain_name", PStr "admin_domain");
      ("project_name", PStr "admin"); ("endpoint_tls_ca", PStr "") ]
    Sample.one_unit
  = Call.set_credentials Sample.request0 Sample.credentials [] Sample.one_unit.
Proof.
  apply (set_credentials_required_by_keyword Sample.request0
           (PStr "https://keystone.example:5000/v3") (PStr "RegionOne")
           (PStr "admin") (PStr "secret") (PStr "admin_domain")
           (PStr "admin_domain") (PStr "admin") (PStr "") 2 Sample.one_unit).
  lia.
Defined.

(** X14: a call of [set_credentials] with the eight required arguments by
    position and the six optional ones by keyword returns, and afterwards
    each of the fourteen values is found under the key that has its
    parameter's name; every key of the relation that is not one of the
    fourteen is as it was. *)
Theorem set_credentials_publishes_under_parameter_names
    (self : IntegrationRequest)
    (auth_url region username password user_domain_name project_domain_name
     project_name endpoint_tls_ca domain_id domain_name project_id
     project_domain_id user_domain_id version : PyVal) (w : World) :
  ∃ w',
    Call.set_credentials self
      [ auth_url; region; username; password; user_domain_name;
        project_domain_name; project_name; endpoint_tls_ca ]
      [ ("domain_id", domain_id); ("domain_name", domain_name);
        ("project_id", project_id); ("project_domain_id", project_domain_id);
        ("user_domain_id", user_domain_id); ("version", version) ] w
    = Returns w'
    ∧ Forall (λ kv, Request._to_publish self w' !! kv.1 = Some kv.2)
        [ ("auth_url", auth_url); ("region", region); ("username", username);
          ("password", password); ("user_domain_name", user_domain_name);
          ("project_domain_name", project_domain_name);
          ("project_name", project_name); ("endpoint_tls_ca", endpoint_tls_ca);
          ("domain_id", domain_id); ("domain_name", domain_name);
          ("project_id", project_id); ("project_domain_id", project_domain_id);
          ("user_domain_id", user_domain_id); ("version", version) ]
    ∧ ∀ k, k ∉ credentials_fields →
           Request._to_publish self w' !! k = Request._to_publish self w !! k.
Proof.
  exists (Request.publish self
            (Request.credentials_record auth_url region username password
               user_domain_name project_domain_name project_name
               endpoint_tls_ca domain_id domain_name project_id
               project_domain_id user_domain_id version) w).
  split; [reflexivity|].
  rewrite to_publish_publish_same by done.
  assert (NoDup credentials_fields) as Hnd
    by (refine (bool_decide_unpack _ _); by vm_compute).
  split.
  - repeat (apply Forall_cons; split;
            [cbn [fst snd]; apply dict_update_lookup;
             [rewrite credentials_record_fields; exact Hnd
             |unfold Request.credentials_record; rewrite !elem_of_cons; tauto]|]).
    apply Forall_nil_2.
  - intros k Hk. by apply dict_update_lookup_notin.
Qed.

(** ** What proxy_config returns *)

(** X15: whatever has been published, no value in the mapping that
    [proxy_config] returns is null: each is the empty string or a value that
    counts as true.  When the published entry is a mapping, the result has
    its keys, in its order. *)
Theorem proxy_config_values_never_null (self : IntegrationRequest) (w : World) :
  (∀ kv, kv ∈ Request.proxy_config self w →
         kv.2 ≠ PNone ∧ (kv.2 = PStr "" ∨ truthy kv.2 = true))
  ∧ (∀ d, Request._to_publish self w !! "proxy_config" = Some (PDict d) →
          (Request.proxy_config self w).*1 = d.*1).
Proof.
  unfold Request.proxy_config. split.
  - intros kv Hkv.
    destruct (Request._to_publish self w !! "proxy_config") as [data|];
      [|by apply elem_of_nil in Hkv].
    destruct (negb (truthy data) || negb (isinstance_dict data));
      [by apply elem_of_nil in Hkv|].
    destruct data as [| | | | |items]; try (by apply elem_of_nil in Hkv).
    change (map ?f items) with (f <$> items) in Hkv.
    apply list_elem_of_fmap in Hkv as ([k v] & -> & _). cbn.
    unfold py_or. destruct (truthy v) eqn:Hv.
    + split; [|by right]. intros ->. discriminate Hv.
    + split; [done|by left].
  - intros d ->. destruct d as [|kv d]; [done|].
    cbn [truthy isinstance_dict negb orb].
    change (map ?f (kv :: d)) with (f <$> kv :: d).
    rewrite <- list_fmap_compose. done.
Qed.

Lemma proxy_config_values_never_null_witness :
  (Request.proxy_config Sample.request0
     (Request.set_proxy_config Sample.request0
        (PDict [ ("host", PStr "proxy.example"); ("port", PInt 0);
                 ("no_proxy", PNone) ]) Sample.one_unit)).*1
  = [ "host"; "port"; "no_proxy" ].
Proof.
  apply (proj2 (proxy_config_values_never_null Sample.request0
                  (Request.set_proxy_config Sample.request0
                     (PDict [ ("host", PStr "proxy.example"); ("port", PInt 0);
                              ("no_proxy", PNone) ]) Sample.one_unit))
           [ ("host", PStr "proxy.example"); ("port", PInt 0);
             ("no_proxy", PNone) ]).
  reflexivity.
Defined.
